(** * Portfolio simulation (chapter10/portfolio_simulation.py)

    A shallow embedding of the class [PortfolioSimulation]: the weight
    sampler, the mean-variance simulation loop, the efficient-frontier sweep,
    the constructor and the two read-only properties.

    Conventions of the embedding.
    - A NumPy float64 is an _extended rational_ ([npfloat]): finite values are
      exact rationals, and the two infinities and NaN follow the IEEE 754
      rules for special values.  Rounding and the sign of zero are abstracted
      away, so "equal within floating-point tolerance" reads as [Qeq] on the
      finite values.
    - The integers of [np.random.randint] and their row sums live in [Z]; a
      row of draws below 100 cannot reach the 64-bit range for any ticker
      list that fits in memory.
    - Python statements that can raise run in a state-and-exception monad [M]
      over a [World] holding the shared provider object, the position in the
      stream of random draws and the attributes of [self]. *)

From Stdlib Require Import List ZArith QArith String Ascii Bool Lia Lqa Arith Sorted.
Import ListNotations.

Set Implicit Arguments.

(* ================================================================== *)
(** ** Floating-point values *)

Module NpFloat.

Inductive npfloat : Type :=
| Fin (q : Q)
| PInf
| NInf
| NaN.

Definition of_Z (z : Z) : npfloat := Fin (inject_Z z).
Definition of_nat (n : nat) : npfloat := of_Z (Z.of_nat n).

Definition isnan (x : npfloat) : bool :=
  match x with NaN => true | _ => false end.

Definition isfinite (x : npfloat) : bool :=
  match x with Fin _ => true | _ => false end.

Definition fneg (x : npfloat) : npfloat :=
  match x with
  | Fin q => Fin (- q)
  | PInf => NInf
  | NInf => PInf
  | NaN => NaN
  end.

Definition fadd (x y : npfloat) : npfloat :=
  match x, y with
  | NaN, _ | _, NaN => NaN
  | Fin a, Fin b => Fin (a + b)
  | PInf, NInf | NInf, PInf => NaN
  | PInf, _ | _, PInf => PInf
  | NInf, _ | _, NInf => NInf
  end.

Definition fsub (x y : npfloat) : npfloat := fadd x (fneg y).

(** The sign of a rational, used for the products and quotients that involve
    an infinity. *)
Definition sign_inf (c : comparison) : npfloat :=
  match c with
  | Gt => PInf
  | Lt => NInf
  | Eq => NaN
  end.

Definition fmul (x y : npfloat) : npfloat :=
  match x, y with
  | NaN, _ | _, NaN => NaN
  | Fin a, Fin b => Fin (a * b)
  | Fin a, PInf | PInf, Fin a => sign_inf (a ?= 0)
  | Fin a, NInf | NInf, Fin a => sign_inf (0 ?= a)
  | PInf, PInf | NInf, NInf => PInf
  | PInf, NInf | NInf, PInf => NInf
  end.

(** [x / y] under NumPy's default error state: a zero divisor gives an
    infinity (or NaN for [0 / 0]) and a RuntimeWarning, never an exception. *)
Definition fdiv (x y : npfloat) : npfloat :=
  match x, y with
  | NaN, _ | _, NaN => NaN
  | Fin a, Fin b =>
      if Qeq_bool b 0 then sign_inf (a ?= 0) else Fin (a / b)
  | Fin _, PInf | Fin _, NInf => Fin 0
  | PInf, Fin b => if Qle_bool 0 b then PInf else NInf
  | NInf, Fin b => if Qle_bool 0 b then NInf else PInf
  | PInf, PInf | PInf, NInf | NInf, PInf | NInf, NInf => NaN
  end.

(** IEEE comparison [x == 0]. *)
Definition feq0 (x : npfloat) : bool :=
  match x with
  | Fin q => Qeq_bool q 0
  | _ => false
  end.

(** IEEE comparison [x <= y]: false as soon as a NaN is involved. *)
Definition fleb (x y : npfloat) : bool :=
  match x, y with
  | NaN, _ | _, NaN => false
  | NInf, _ => true
  | _, PInf => true
  | Fin a, Fin b => Qle_bool a b
  | _, _ => false
  end.

(** Equality of modelled values: [Qeq] on the finite ones. *)
Definition feq (x y : npfloat) : Prop :=
  match x, y with
  | Fin a, Fin b => a == b
  | PInf, PInf | NInf, NInf | NaN, NaN => True
  | _, _ => False
  end.

Definition fle (x y : npfloat) : Prop := fleb x y = true.

End NpFloat.
Export NpFloat.

Declare Scope npfloat_scope.
Delimit Scope npfloat_scope with F.
Infix "+" := fadd : npfloat_scope.
Infix "-" := fsub : npfloat_scope.
Infix "*" := fmul : npfloat_scope.
Infix "/" := fdiv : npfloat_scope.
Infix "=~" := feq (at level 70, no associativity) : npfloat_scope.

Local Open Scope string_scope.
Local Open Scope list_scope.
Local Open Scope nat_scope.

(* ================================================================== *)
(** ** The fragment of Python, NumPy and pandas the class relies on *)

Inductive exn : Type :=
| AttributeError
| ValueError
| TypeError
| KeyError
| IndexError
| ModuleNotFoundError
| ImportError.

(** [s.rsplit(sep, 1)]: the text before and after the last [sep], or [s]
    alone when it holds no [sep]. *)
Fixpoint rsplit1 (sep : ascii) (s : string) : list string :=
  match s with
  | EmptyString => [EmptyString]
  | String c rest =>
      match rsplit1 sep rest with
      | [m; k] => [String c m; k]
      | [x] => if Ascii.eqb c sep then [EmptyString; x] else [String c x]
      | _ => []
      end
  end.

(** A two-dimensional [ndarray]: its shape and its cells.  Keeping the shape
    apart from the cells lets an array of shape (2000, 0) and its transpose
    exist. *)
Record ndarray2 (A : Type) : Type := mk_ndarray2 {
  nrows : nat;
  ncols : nat;
  cell : nat -> nat -> A
}.

Module Np.

(** [a.T] *)
Definition T {A} (a : ndarray2 A) : ndarray2 A :=
  {| nrows := ncols a; ncols := nrows a; cell := fun i j => cell a j i |}.

(** [a[i]] for [0 <= i]: the i-th row, [IndexError] out of range. *)
Definition getitem2 {A} (a : ndarray2 A) (i : nat) : exn + list A :=
  if i <? nrows a then inr (map (cell a i) (seq 0 (ncols a)))
  else inl IndexError.

(** [v[i]] on a one-dimensional array. *)
Definition getitem1 {A} (v : list A) (i : nat) : exn + A :=
  match nth_error v i with
  | Some x => inr x
  | None => inl IndexError
  end.

(** [a.sum(axis=1)] on an integer array. *)
Definition sum_axis1 (a : ndarray2 Z) : list Z :=
  map (fun i => fold_left Z.add (map (cell a i) (seq 0 (ncols a))) 0%Z)
      (seq 0 (nrows a)).

(** [x / v] for a float scalar and an integer vector. *)
Definition scalar_div (x : npfloat) (v : list Z) : list npfloat :=
  map (fun s => fdiv x (of_Z s)) v.

(** [a * v] for an integer matrix and a float vector as long as the rows of
    [a]: the vector is broadcast along the last axis. *)
Definition mul_broadcast (a : ndarray2 Z) (v : list npfloat) : ndarray2 npfloat :=
  {| nrows := nrows a;
     ncols := ncols a;
     cell := fun i j => fmul (of_Z (cell a i j)) (nth j v NaN) |}.

(** The rows of a matrix, first to last. *)
Definition rows_of {A} (a : ndarray2 A) : list (list A) :=
  map (fun i => map (cell a i) (seq 0 (ncols a))) (seq 0 (nrows a)).

(** [np.sum(v)] on a float vector. *)
Definition sum (v : list npfloat) : npfloat := fold_left fadd v (Fin 0).

(** [y[-1] = stop] *)
Fixpoint set_last {A} (y : list A) (stop : A) : list A :=
  match y with
  | [] => []
  | [_] => [stop]
  | x :: rest => x :: set_last rest stop
  end.

(** The divisor of [np.linspace] with [endpoint=True]. *)
Definition linspace_div (num : nat) : nat := num - 1.

(** [np.linspace(start, stop, num)] on scalars, as NumPy computes it: the
    integers [0 .. num-1] scaled by the step, shifted by [start], and the
    last item overwritten with [stop]. *)
Definition linspace (start stop : npfloat) (num : nat) : list npfloat :=
  let div := linspace_div num in
  let y := map of_nat (seq 0 num) in
  let delta := fsub stop start in
  let y :=
    if 0 <? div then
      let step := fdiv delta (of_nat div) in
      if feq0 step
      then map (fun v => fmul (fdiv v (of_nat div)) delta) y
      else map (fun v => fmul v step) y
    else map (fun v => fmul v delta) y in
  let y := map (fun v => fadd v start) y in
  if 1 <? num then set_last y stop else y.

End Np.

Module Pd.

(** The two shapes of [DataFrame] the class builds: [pd.DataFrame()], which
    has neither columns nor rows, and a frame with the columns
    'Expected Return' and 'Volatility', one pair per row. *)
Inductive DataFrame : Type :=
| DF_empty
| DF_points (pts : list (npfloat * npfloat)).

(** [pd.DataFrame({'Expected Return': [m], 'Volatility': [v]})] *)
Definition one_row (m v : npfloat) : DataFrame := DF_points [(m, v)].

(** [pd.concat([a, b], ignore_index=True)] *)
Definition concat (a b : DataFrame) : DataFrame :=
  match a, b with
  | DF_empty, d => d
  | d, DF_empty => d
  | DF_points p, DF_points q => DF_points (p ++ q)
  end.

(** The frame that holds the given points: [pd.DataFrame()] when there are
    none. *)
Definition frame_of (pts : list (npfloat * npfloat)) : DataFrame :=
  match pts with
  | [] => DF_empty
  | _ => DF_points pts
  end.

(** The rows of a frame. *)
Definition rows (d : DataFrame) : list (npfloat * npfloat) :=
  match d with
  | DF_empty => []
  | DF_points pts => pts
  end.

(** [d['Expected Return']]: [KeyError] on a frame without that column. *)
Definition getitem (d : DataFrame) (column : string) : exn + list npfloat :=
  match d with
  | DF_empty => inl KeyError
  | DF_points pts =>
      if String.eqb column "Expected Return" then inr (map fst pts)
      else if String.eqb column "Volatility" then inr (map snd pts)
      else inl KeyError
  end.

(** Reductions of a Series skip NaN ([skipna=True]) and give NaN when
    nothing is left; [np.min] and [np.max] on a Series dispatch to them. *)
Definition dropna (s : list npfloat) : list npfloat :=
  filter (fun x => negb (isnan x)) s.

Definition reduce (pick : npfloat -> npfloat -> npfloat) (s : list npfloat) : npfloat :=
  match dropna s with
  | [] => NaN
  | x :: rest => fold_left pick rest x
  end.

Definition min2 (a b : npfloat) : npfloat := if fleb b a then b else a.
Definition max2 (a b : npfloat) : npfloat := if fleb a b then b else a.

Definition min (s : list npfloat) : npfloat := reduce min2 s.
Definition max (s : list npfloat) : npfloat := reduce max2 s.

End Pd.
Export Pd.

(* ================================================================== *)
(** ** The collaborators *)

(** The interface of [PortfolioAssets] as the class uses it: the ticker
    symbols, the assignable [weights] slot, and the two figures derived from
    the weights currently held.  [PA] is the state of the provider object. *)
Class PortfolioAssets (PA : Type) : Type := {
  ticker_symbols : PA -> list string;
  set_weights : PA -> list npfloat -> PA;
  expected_return : PA -> npfloat;
  volatility : PA -> npfloat
}.

(** A portfolio optimizer class: its constructor, taking
    [expected_mean_return], the [fit] method, which receives the provider
    object and may write to it, and the [optimal_variance] attribute, [None]
    when no solution was found. *)
Record OptimizerClass (PA : Type) : Type := {
  instance : Type;
  new : npfloat -> instance;
  fit : instance -> PA -> instance * PA;
  optimal_variance : instance -> option npfloat
}.

(** What [getattr] can find in a module: an optimizer class, or an object
    of another kind (a constant, a submodule), which cannot be called. *)
Inductive PyObject (PA : Type) : Type :=
| PyClass (c : OptimizerClass PA)
| PyOther.
Arguments PyOther {PA}.

(** A module maps attribute names to objects. *)
Definition PyModule (PA : Type) : Type := string -> option (PyObject PA).

(** An attribute of an object: not assigned yet, holding [None], or holding
    a value. *)
Inductive attr (A : Type) : Type :=
| Unset
| PyNone
| Holds (a : A).
Arguments Unset {A}.
Arguments PyNone {A}.

(* ================================================================== *)
(** ** The class *)

Section PortfolioSimulation.

Context {PA : Type} `{PortfolioAssets PA}.

(** What [importlib.import_module] finds under a module name. *)
Variable import_module : string -> exn + PyModule PA.

(** The stream of [np.random]: [randint high k] is the k-th integer the
    global generator hands out for the bound [high]. *)
Variable randint : Z -> nat -> Z.

(** The attributes of a [PortfolioSimulation] object.  [_portfolio_assets]
    is a reference to the shared provider, whose state is [assets] below. *)
Record Self : Type := mkSelf {
  _portfolio_optimizer_class : attr (PyObject PA);
  _mean_var_dist : attr DataFrame;
  _efficient_frontier : attr DataFrame
}.

Definition fresh : Self :=
  {| _portfolio_optimizer_class := Unset;
     _mean_var_dist := Unset;
     _efficient_frontier := Unset |}.

Record World : Type := mkWorld {
  assets : PA;
  rng_pos : nat;
  this : Self
}.

(** *** Statements: state passing with exceptions *)

Definition M (A : Type) : Type := World -> (exn + A) * World.

Definition ret {A} (a : A) : M A := fun w => (inr a, w).

Definition raise {A} (e : exn) : M A := fun w => (inl e, w).

Definition bind {A B} (m : M A) (k : A -> M B) : M B :=
  fun w =>
    match m w with
    | (inl e, w') => (inl e, w')
    | (inr a, w') => k a w'
    end.

Definition lift {A} (r : exn + A) : M A :=
  match r with
  | inl e => raise e
  | inr a => ret a
  end.

Definition gets {A} (f : World -> A) : M A := fun w => (inr (f w), w).

Definition modify (f : World -> World) : M unit := fun w => (inr tt, f w).

(** Reading [self.x]: [AttributeError] when [x] was never assigned. *)
Definition read {A} (field : Self -> attr A) : M (option A) :=
  fun w =>
    match field (this w) with
    | Unset => (inl AttributeError, w)
    | PyNone => (inr None, w)
    | Holds a => (inr (Some a), w)
    end.

Definition with_assets (f : PA -> PA) (w : World) : World :=
  {| assets := f (assets w); rng_pos := rng_pos w; this := this w |}.

Definition with_this (f : Self -> Self) (w : World) : World :=
  {| assets := assets w; rng_pos := rng_pos w; this := f (this w) |}.

Definition set_portfolio_optimizer_class (c : PyObject PA) (s : Self) : Self :=
  {| _portfolio_optimizer_class := Holds c;
     _mean_var_dist := _mean_var_dist s;
     _efficient_frontier := _efficient_frontier s |}.

Definition set_mean_var_dist (d : DataFrame) (s : Self) : Self :=
  {| _portfolio_optimizer_class := _portfolio_optimizer_class s;
     _mean_var_dist := Holds d;
     _efficient_frontier := _efficient_frontier s |}.

Definition set_efficient_frontier (d : DataFrame) (s : Self) : Self :=
  {| _portfolio_optimizer_class := _portfolio_optimizer_class s;
     _mean_var_dist := _mean_var_dist s;
     _efficient_frontier := Holds d |}.

(** [for x in xs: acc = body(x, acc)] *)
Fixpoint for_each {A B} (xs : list B) (body : B -> A -> M A) (acc : A) : M A :=
  match xs with
  | [] => ret acc
  | x :: rest => bind (body x acc) (for_each rest body)
  end.

Definition range (n : nat) : list nat := seq 0 n.

(** [np.random.randint(high, size=(r, c))]: the next [r * c] draws, laid out
    row by row. *)
Definition np_random_randint (high : Z) (r c : nat) : M (ndarray2 Z) :=
  fun w =>
    let pos := rng_pos w in
    (inr {| nrows := r; ncols := c;
            cell := fun i j => randint high (pos + i * c + j) |},
     {| assets := assets w; rng_pos := pos + r * c; this := this w |}).

(** *** Class attributes *)

Definition _N_SIMULATION_MEAN_VAR : nat := 2000.
Definition _N_SIMULATION_EFFICIENT_FRONTIER : nat := 100.

(** *** Methods *)

Definition _load_portfolio_optimizer_class (full_class_name : option string) : M unit :=
  match full_class_name with
  | None => raise AttributeError
  | Some name =>
      match rsplit1 "." name with
      | [module_name; class_name] =>
          bind (lift (import_module module_name)) (fun module =>
          match module class_name with
          | None => raise AttributeError
          | Some cls => modify (with_this (set_portfolio_optimizer_class cls))
          end)
      | _ => raise ValueError
      end
  end.

Definition _generate_random_asset_weight_distribution : M (ndarray2 npfloat) :=
  bind (gets (fun w => List.length (ticker_symbols (assets w)))) (fun n_assets =>
  bind (np_random_randint 100 _N_SIMULATION_MEAN_VAR n_assets) (fun ri =>
  let norm_factor := Np.scalar_div (Fin 1) (Np.sum_axis1 ri) in
  ret (Np.T (Np.mul_broadcast (Np.T ri) norm_factor)))).

(** The body of the simulation loop, for the row [i_batch]. *)
Definition simulate_row (weights_batch : ndarray2 npfloat)
    (i_batch : nat) (expected_return_volatility : DataFrame) : M DataFrame :=
  bind (lift (Np.getitem2 weights_batch i_batch)) (fun row =>
  bind (modify (with_assets (fun pa => set_weights pa row))) (fun _ =>
  bind (gets (fun w => expected_return (assets w))) (fun means =>
  bind (gets (fun w => volatility (assets w))) (fun var =>
  ret (Pd.concat expected_return_volatility (Pd.one_row means var)))))).

Definition _simulate_expected_return_volatility_distribution : M DataFrame :=
  bind (gets (fun w => ticker_symbols (assets w))) (fun tickers =>
  bind _generate_random_asset_weight_distribution (fun weights_batch =>
  for_each (range _N_SIMULATION_MEAN_VAR) (simulate_row weights_batch) DF_empty)).

(** [obj[...]] and a call on a value that may be [None]. *)
Definition not_none {A} (v : option A) : M A :=
  match v with
  | None => raise TypeError
  | Some a => ret a
  end.

(** Calling an object as a class: [TypeError] when it is not callable. *)
Definition as_class (o : PyObject PA) : M (OptimizerClass PA) :=
  match o with
  | PyClass c => ret c
  | PyOther => raise TypeError
  end.

(** The body of the frontier loop, for the target [i_batch]. *)
Definition frontier_step (target_means_space : list npfloat)
    (i_batch : nat) (efficient_froniter : DataFrame) : M DataFrame :=
  bind (lift (Np.getitem1 target_means_space i_batch)) (fun target_mean =>
  bind (read _portfolio_optimizer_class) (fun c =>
  bind (bind (not_none c) as_class) (fun cls =>
  let portfolio_optimizer := new cls target_mean in
  fun w =>
    let (fitted, pa) := fit cls portfolio_optimizer (assets w) in
    let w' := with_assets (fun _ => pa) w in
    match optimal_variance cls fitted with
    | Some optimal_var =>
        (inr (Pd.concat efficient_froniter (Pd.one_row target_mean optimal_var)), w')
    | None => (inr efficient_froniter, w')
    end))).

Definition _compute_efficient_frontier_path : M DataFrame :=
  bind (read _mean_var_dist) (fun held =>
  bind (match held with
        | None =>
            bind _simulate_expected_return_volatility_distribution (fun d =>
            modify (with_this (set_mean_var_dist d)))
        | Some _ => ret tt
        end) (fun _ =>
  bind (bind (read _mean_var_dist) not_none) (fun dist_lo =>
  bind (lift (Pd.getitem dist_lo "Expected Return")) (fun column_lo =>
  let lo := Pd.min column_lo in
  bind (bind (read _mean_var_dist) not_none) (fun dist_hi =>
  bind (lift (Pd.getitem dist_hi "Expected Return")) (fun column_hi =>
  let hi := Pd.max column_hi in
  let target_means_space :=
    Np.linspace lo hi _N_SIMULATION_EFFICIENT_FRONTIER in
  for_each (range _N_SIMULATION_EFFICIENT_FRONTIER)
           (frontier_step target_means_space) DF_empty)))))).

Definition __init__ (portfolio_optimizer_full_class_name : option string) : M unit :=
  bind (_load_portfolio_optimizer_class portfolio_optimizer_full_class_name) (fun _ =>
  bind _simulate_expected_return_volatility_distribution (fun d =>
  bind (modify (with_this (set_mean_var_dist d))) (fun _ =>
  bind _compute_efficient_frontier_path (fun f =>
  modify (with_this (set_efficient_frontier f)))))).

(** The properties. *)
Definition mean_variance_distribution : M (option DataFrame) := read _mean_var_dist.
Definition efficient_frontier : M (option DataFrame) := read _efficient_frontier.

(** [PortfolioSimulation(portfolio_assets, name)]: a new object, whose
    [__init__] runs on the provider in the state [pa] with the generator at
    position [pos]. *)
Definition construct (pa : PA) (pos : nat) (name : option string) : (exn + unit) * World :=
  __init__ name {| assets := pa; rng_pos := pos; this := fresh |}.

(** *** Reference functions for the statements *)

(** The matrix the sampler returns for [n_assets] tickers when the generator
    stands at [pos], and the raw draws of its row [i]. *)
Definition draws_row (pos n_assets i : nat) : list Z :=
  map (fun j => randint 100 (pos + i * n_assets + j)) (seq 0 n_assets).

Definition row_sum (pos n_assets i : nat) : Z :=
  fold_left Z.add (draws_row pos n_assets i) 0%Z.

(** The provider after the rows were assigned to its weights one after the
    other. *)
Definition assign_rows (rows : list (list npfloat)) (pa : PA) : PA :=
  fold_left set_weights rows pa.

(** The points read back when the rows are assigned one after the other. *)
Fixpoint simulated (rows : list (list npfloat)) (pa : PA) : list (npfloat * npfloat) :=
  match rows with
  | [] => []
  | row :: rest =>
      let pa' := set_weights pa row in
      (expected_return pa', volatility pa') :: simulated rest pa'
  end.

(** One target of the sweep: build the optimizer, fit it on the provider,
    and keep the point when a variance came back. *)
Definition visit (cls : OptimizerClass PA) (st : DataFrame * PA) (target : npfloat)
    : DataFrame * PA :=
  let (fitted, pa) := fit cls (new cls target) (snd st) in
  match optimal_variance cls fitted with
  | Some v => (Pd.concat (fst st) (Pd.one_row target v), pa)
  | None => (fst st, pa)
  end.

(** What the optimizers report along a pass over the targets, the provider
    being handed from one fit to the next. *)
Fixpoint outcomes (cls : OptimizerClass PA) (targets : list npfloat) (pa : PA)
    : list (npfloat * option npfloat) :=
  match targets with
  | [] => []
  | t :: rest =>
      let (fitted, pa') := fit cls (new cls t) pa in
      (t, optimal_variance cls fitted) :: outcomes cls rest pa'
  end.

Definition feasible (o : npfloat * option npfloat) : list (npfloat * npfloat) :=
  match snd o with
  | Some v => [(fst o, v)]
  | None => []
  end.

(** Calls of the two properties. *)
Inductive accessor : Type :=
| Get_mean_variance_distribution
| Get_efficient_frontier.

Definition call (a : accessor) : M (option DataFrame) :=
  match a with
  | Get_mean_variance_distribution => mean_variance_distribution
  | Get_efficient_frontier => efficient_frontier
  end.

Fixpoint calls (l : list accessor) : M (list (option DataFrame)) :=
  match l with
  | [] => ret []
  | a :: rest =>
      bind (call a) (fun r => bind (calls rest) (fun rs => ret (r :: rs)))
  end.

Definition stored (s : Self) (a : accessor) : attr DataFrame :=
  match a with
  | Get_mean_variance_distribution => _mean_var_dist s
  | Get_efficient_frontier => _efficient_frontier s
  end.

End PortfolioSimulation.

(* ================================================================== *)
(** ** Concrete collaborators *)

Module Mock.

(** A provider over two tickers whose state is the weight vector it holds:
    the expected return is [dot(weights, [0.1, 0.2])] and the volatility
    [dot(weights, [0.05, 0.08])]. *)
Fixpoint dot (w c : list npfloat) : npfloat :=
  match w, c with
  | x :: w', y :: c' => fadd (fmul x y) (dot w' c')
  | _, _ => Fin 0
  end.

#[global] Instance two_assets : PortfolioAssets (list npfloat) := {|
  ticker_symbols := fun _ => ["AAA"; "BBB"];
  set_weights := fun _ w => w;
  expected_return := fun w => dot w [Fin (1 # 10); Fin (2 # 10)];
  volatility := fun w => dot w [Fin (5 # 100); Fin (8 # 100)]
|}.

(** A provider without any ticker: it has no state, and both figures are
    zero. *)
#[global] Instance no_assets : PortfolioAssets unit := {|
  ticker_symbols := fun _ => [];
  set_weights := fun _ _ => tt;
  expected_return := fun _ => Fin 0;
  volatility := fun _ => Fin 0
|}.

(** An optimizer that never finds a solution. *)
Definition never_feasible : OptimizerClass (list npfloat) := {|
  instance := npfloat;
  new := fun target => target;
  fit := fun o pa => (o, pa);
  optimal_variance := fun _ => None
|}.

(** An optimizer that always finds one, with variance the square of its
    target. *)
Definition always_feasible : OptimizerClass (list npfloat) := {|
  instance := npfloat;
  new := fun target => target;
  fit := fun o pa => (o, pa);
  optimal_variance := fun o => Some (fmul o o)
|}.

(** An optimizer that finds a solution for the targets of at least 0.175
    only, and leaves the weights [0.5, 0.5] in the provider. *)
Definition upper_half : OptimizerClass (list npfloat) := {|
  instance := npfloat;
  new := fun target => target;
  fit := fun o _ => (o, [Fin (1 # 2); Fin (1 # 2)]);
  optimal_variance := fun o => if fleb (Fin (175 # 1000)) o then Some (fmul o o) else None
|}.

(** The modules that can be imported: [chapter10.optimizers] alone, with
    three optimizer classes and the constant [VERSION]. *)
Definition import_module (name : string) : exn + PyModule (list npfloat) :=
  if String.eqb name "chapter10.optimizers" then
    inr (fun class_name =>
           if String.eqb class_name "NeverFeasible" then Some (PyClass never_feasible)
           else if String.eqb class_name "AlwaysFeasible" then Some (PyClass always_feasible)
           else if String.eqb class_name "UpperHalf" then Some (PyClass upper_half)
           else if String.eqb class_name "VERSION" then Some PyOther
           else None)
  else inl ModuleNotFoundError.

(** No module can be imported. *)
Definition no_modules (name : string) : exn + PyModule (list npfloat) :=
  inl ModuleNotFoundError.

(** A generator that counts: the k-th draw is [k mod high]. *)
Definition counting (high : Z) (k : nat) : Z := (Z.of_nat k mod high)%Z.

(** A generator that only draws zero. *)
Definition zeros (high : Z) (k : nat) : Z := 0%Z.

(** The world before construction: the provider holds no weights and the
    generator has not been used. *)
Definition start : @World (list npfloat) :=
  {| assets := []; rng_pos := 0; this := fresh |}.

(** An object that holds an optimizer class and a distribution, as it
    stands when the sweep starts. *)
Definition ready (cls : OptimizerClass (list npfloat)) (d : DataFrame)
    : @World (list npfloat) :=
  {| assets := [];
     rng_pos := 0;
     this := {| _portfolio_optimizer_class := Holds (PyClass cls);
                _mean_var_dist := Holds d;
                _efficient_frontier := Unset |} |}.

Definition three_points : list (npfloat * npfloat) :=
  [(Fin (1 # 10), Fin (5 # 100));
   (Fin (2 # 10), Fin (8 # 100));
   (Fin (15 # 100), Fin (6 # 100))].

Definition flat_points : list (npfloat * npfloat) :=
  [(Fin (15 # 100), Fin (5 # 100)); (Fin (15 # 100), Fin (8 # 100))].

End Mock.

(* ================================================================== *)
(** ** Facts about the modelled floats *)

Lemma feq_refl x : feq x x.
Proof. destruct x; simpl; auto; reflexivity. Qed.

Lemma feq_sym x y : feq x y -> feq y x.
Proof. destruct x, y; simpl; auto; intros E; symmetry; exact E. Qed.

Lemma feq_trans x y z : feq x y -> feq y z -> feq x z.
Proof.
  destruct x, y, z; simpl; auto; try contradiction.
  intros E1 E2; rewrite E1; exact E2.
Qed.

Lemma Qeq_bool_false_neq (a b : Q) : ~ a == b -> Qeq_bool a b = false.
Proof.
  intros N. destruct (Qeq_bool a b) eqn:E; auto.
  apply Qeq_bool_eq in E. contradiction.
Qed.

Lemma inject_Z_nonzero (z : Z) : z <> 0%Z -> ~ inject_Z z == 0.
Proof.
  intros N E. apply N. unfold Qeq in E. simpl in E. lia.
Qed.

Lemma fdiv_fin (a d : Q) : ~ d == 0 -> fdiv (Fin a) (Fin d) = Fin (a / d).
Proof. intros D. unfold fdiv. rewrite (Qeq_bool_false_neq D). reflexivity. Qed.

Lemma of_nat_div_nonzero (n : nat) : 0 < n -> feq0 (of_nat n) = false.
Proof.
  intros P. unfold of_nat, of_Z, feq0.
  apply Qeq_bool_false_neq, inject_Z_nonzero. lia.
Qed.

(* ================================================================== *)
(** ** Facts about [np.linspace] *)

Lemma set_last_length {A} (y : list A) (s : A) :
  List.length (Np.set_last y s) = List.length y.
Proof.
  induction y as [|x [|x' rest] IH]; simpl in *; auto.
Qed.

Lemma set_last_nth_before {A} (y : list A) (s d : A) (i : nat) :
  S i < List.length y -> nth i (Np.set_last y s) d = nth i y d.
Proof.
  revert i. induction y as [|x [|x' rest] IH]; intros i L; simpl in L; try lia.
  destruct i as [|i]; [reflexivity|].
  change (nth i (Np.set_last (x' :: rest) s) d = nth i (x' :: rest) d).
  apply IH. simpl. lia.
Qed.

Lemma set_last_nth_last {A} (y : list A) (s d : A) :
  0 < List.length y -> nth (List.length y - 1) (Np.set_last y s) d = s.
Proof.
  induction y as [|x [|x' rest] IH]; intros L; simpl in L; try lia.
  - reflexivity.
  - change (nth (S (List.length rest)) (x :: Np.set_last (x' :: rest) s) d = s).
    simpl nth at 1.
    replace (List.length rest) with (List.length (x' :: rest) - 1) by (simpl; lia).
    apply IH. simpl. lia.
Qed.

Lemma linspace_length (start stop : npfloat) (num : nat) :
  List.length (Np.linspace start stop num) = num.
Proof.
  unfold Np.linspace.
  assert (L : forall f g : npfloat -> npfloat,
             List.length (map f (map g (map of_nat (seq 0 num)))) = num).
  { intros. rewrite !length_map, length_seq. reflexivity. }
  assert (L' : forall f : npfloat -> npfloat,
             List.length (map f (map of_nat (seq 0 num))) = num).
  { intros. rewrite !length_map, length_seq. reflexivity. }
  destruct (1 <? num); [rewrite set_last_length|];
    destruct (0 <? Np.linspace_div num); try destruct (feq0 _); auto.
Qed.

Lemma linspace_last (start stop : npfloat) (num : nat) :
  1 < num -> nth (num - 1) (Np.linspace start stop num) NaN = stop.
Proof.
  intros L. unfold Np.linspace.
  destruct (Nat.ltb_spec 1 num) as [_|?]; [|lia].
  match goal with |- nth _ (Np.set_last ?y _) _ = _ =>
    assert (E : List.length y = num)
  end.
  { destruct (0 <? Np.linspace_div num); try destruct (feq0 _);
      rewrite !length_map, length_seq; reflexivity. }
  rewrite <- E at 1. apply set_last_nth_last. lia.
Qed.

Lemma nth_map_seq {A} (f : nat -> A) (n i : nat) (d : A) :
  i < n -> nth i (map f (seq 0 n)) d = f i.
Proof.
  intros L. rewrite (nth_indep _ d (f 0)) by (rewrite length_map, length_seq; exact L).
  rewrite map_nth, seq_nth by exact L. reflexivity.
Qed.

(** The items before the last one, for finite end points. *)
Lemma linspace_nth (a b : Q) (num i : nat) :
  S i < num ->
  exists q,
    nth i (Np.linspace (Fin a) (Fin b) num) NaN = Fin q /\
    q == a + inject_Z (Z.of_nat i) * ((b - a) / inject_Z (Z.of_nat (num - 1))).
Proof.
  intros L. unfold Np.linspace.
  destruct (Nat.ltb_spec 1 num) as [_|?]; [|lia].
  unfold Np.linspace_div.
  destruct (Nat.ltb_spec 0 (num - 1)) as [_|?]; [|lia].
  assert (D : ~ inject_Z (Z.of_nat (num - 1)) == 0)
    by (apply inject_Z_nonzero; lia).
  assert (Db := Qeq_bool_false_neq D).
  set (d := inject_Z (Z.of_nat (num - 1))) in *.
  match goal with |- context [Np.set_last ?y _] =>
    assert (E : List.length y = num)
  end.
  { destruct (feq0 _); rewrite !length_map, length_seq; reflexivity. }
  rewrite set_last_nth_before by lia.
  change (fsub (Fin b) (Fin a)) with (Fin (b + - a)).
  change (of_nat (num - 1)) with (Fin d).
  rewrite (fdiv_fin _ D). unfold feq0.
  destruct (Qeq_bool ((b + - a) / d) 0) eqn:Z0.
  - apply Qeq_bool_eq in Z0.
    rewrite !map_map, nth_map_seq by lia.
    unfold of_nat, of_Z. rewrite (fdiv_fin _ D). simpl.
    eexists; split; [reflexivity|].
    assert (Z1 : (b + - a == 0)%Q).
    { setoid_replace (b + - a)%Q with ((b + - a) / d * d)%Q by (field; exact D).
      rewrite Z0. ring. }
    unfold Qminus. rewrite Z1. field. exact D.
  - rewrite !map_map, nth_map_seq by lia.
    unfold of_nat, of_Z. simpl.
    eexists; split; [reflexivity|]. unfold Qminus. ring.
Qed.

(* ================================================================== *)
(** ** Facts about the reductions of a Series *)

Lemma fleb_refl x : isnan x = false -> fleb x x = true.
Proof.
  destruct x; simpl; try discriminate; auto.
  intros _. apply Qle_bool_iff. apply Qle_refl.
Qed.

Lemma fleb_trans x y z : fleb x y = true -> fleb y z = true -> fleb x z = true.
Proof.
  destruct x, y, z; simpl; try discriminate; auto.
  rewrite !Qle_bool_iff. apply Qle_trans.
Qed.

Lemma fleb_total x y :
  isnan x = false -> isnan y = false -> fleb x y = false -> fleb y x = true.
Proof.
  destruct x, y; simpl; try discriminate; auto.
  intros _ _ F. apply Qle_bool_iff.
  destruct (Qlt_le_dec q0 q) as [L|L].
  - apply Qlt_le_weak; exact L.
  - apply Qle_bool_iff in L. congruence.
Qed.

Lemma dropna_notnan (s : list npfloat) :
  Forall (fun x => isnan x = false) (Pd.dropna s).
Proof.
  apply Forall_forall. intros x I. apply filter_In in I.
  destruct I as [_ I]. destruct (isnan x); simpl in I; congruence.
Qed.

Lemma dropna_finite (s : list npfloat) :
  forallb isfinite s = true -> Pd.dropna s = s.
Proof.
  induction s as [|x s IH]; simpl; [reflexivity|].
  intros F. apply andb_true_iff in F. destruct F as [Fx Fs].
  destruct x; simpl in *; try discriminate. rewrite IH by exact Fs. reflexivity.
Qed.

Lemma fold_min2_spec (rest : list npfloat) :
  forall x, isnan x = false -> Forall (fun y => isnan y = false) rest ->
    In (fold_left Pd.min2 rest x) (x :: rest) /\
    forall y, In y (x :: rest) -> fleb (fold_left Pd.min2 rest x) y = true.
Proof.
  induction rest as [|y ys IH]; intros x Nx Nr.
  - simpl. split; [auto|]. intros y [<-|[]]. apply fleb_refl; exact Nx.
  - inversion Nr as [|? ? Ny Nys]; subst.
    assert (Nm : isnan (Pd.min2 x y) = false)
      by (unfold Pd.min2; destruct (fleb y x); assumption).
    destruct (IH (Pd.min2 x y) Nm Nys) as [I B].
    assert (Bm : fleb (fold_left Pd.min2 ys (Pd.min2 x y)) (Pd.min2 x y) = true)
      by (apply B; left; reflexivity).
    simpl fold_left. split.
    + destruct I as [I|I].
      * rewrite <- I. unfold Pd.min2. destruct (fleb y x); simpl; auto.
      * right; right; exact I.
    + intros z [<-|[<-|I']].
      * eapply fleb_trans; [exact Bm|].
        unfold Pd.min2. destruct (fleb y x) eqn:E; [exact E|apply fleb_refl; exact Nx].
      * eapply fleb_trans; [exact Bm|].
        unfold Pd.min2. destruct (fleb y x) eqn:E;
          [apply fleb_refl; exact Ny|apply fleb_total; assumption].
      * apply B. right; exact I'.
Qed.

Lemma fold_max2_spec (rest : list npfloat) :
  forall x, isnan x = false -> Forall (fun y => isnan y = false) rest ->
    In (fold_left Pd.max2 rest x) (x :: rest) /\
    forall y, In y (x :: rest) -> fleb y (fold_left Pd.max2 rest x) = true.
Proof.
  induction rest as [|y ys IH]; intros x Nx Nr.
  - simpl. split; [auto|]. intros y [<-|[]]. apply fleb_refl; exact Nx.
  - inversion Nr as [|? ? Ny Nys]; subst.
    assert (Nm : isnan (Pd.max2 x y) = false)
      by (unfold Pd.max2; destruct (fleb x y); assumption).
    destruct (IH (Pd.max2 x y) Nm Nys) as [I B].
    assert (Bm : fleb (Pd.max2 x y) (fold_left Pd.max2 ys (Pd.max2 x y)) = true)
      by (apply B; left; reflexivity).
    simpl fold_left. split.
    + destruct I as [I|I].
      * rewrite <- I. unfold Pd.max2. destruct (fleb x y); simpl; auto.
      * right; right; exact I.
    + intros z [<-|[<-|I']].
      * eapply fleb_trans; [|exact Bm].
        unfold Pd.max2. destruct (fleb x y) eqn:E; [exact E|apply fleb_refl; exact Nx].
      * eapply fleb_trans; [|exact Bm].
        unfold Pd.max2. destruct (fleb x y) eqn:E;
          [apply fleb_refl; exact Ny|apply fleb_total; assumption].
      * apply B. right; exact I'.
Qed.

(** On a column with a value that is not NaN, [min] is one of these values
    and lies below all of them; [max] likewise above. *)
Lemma min_spec (s : list npfloat) :
  Pd.dropna s <> [] ->
  In (Pd.min s) (Pd.dropna s) /\
  forall y, In y (Pd.dropna s) -> fleb (Pd.min s) y = true.
Proof.
  intros N. unfold Pd.min, Pd.reduce.
  pose proof (dropna_notnan s) as F.
  destruct (Pd.dropna s) as [|x rest]; [congruence|].
  inversion F; subst. apply fold_min2_spec; assumption.
Qed.

Lemma max_spec (s : list npfloat) :
  Pd.dropna s <> [] ->
  In (Pd.max s) (Pd.dropna s) /\
  forall y, In y (Pd.dropna s) -> fleb y (Pd.max s) = true.
Proof.
  intros N. unfold Pd.max, Pd.reduce.
  pose proof (dropna_notnan s) as F.
  destruct (Pd.dropna s) as [|x rest]; [congruence|].
  inversion F; subst. apply fold_max2_spec; assumption.
Qed.

Lemma finite_in (s : list npfloat) (x : npfloat) :
  forallb isfinite s = true -> In x s -> exists q, x = Fin q.
Proof.
  intros F I. rewrite forallb_forall in F. specialize (F x I).
  destruct x; try discriminate. eauto.
Qed.

(** On a non-empty column of finite values both are finite, and ordered. *)
Lemma min_max_finite (s : list npfloat) :
  s <> [] -> forallb isfinite s = true ->
  exists lo hi,
    Pd.min s = Fin lo /\ Pd.max s = Fin hi /\ (lo <= hi)%Q /\
    In (Fin lo) s /\ In (Fin hi) s /\
    forall x, In (Fin x) s -> (lo <= x <= hi)%Q.
Proof.
  intros N F.
  assert (D : Pd.dropna s = s) by (apply dropna_finite; exact F).
  assert (N' : Pd.dropna s <> []) by congruence.
  destruct (@min_spec s N') as [Imin Bmin].
  destruct (@max_spec s N') as [Imax Bmax].
  rewrite D in *.
  destruct (@finite_in s _ F Imin) as [lo Elo].
  destruct (@finite_in s _ F Imax) as [hi Ehi].
  exists lo, hi. rewrite Elo, Ehi in *. repeat split; auto.
  - specialize (Bmin _ Imax). simpl in Bmin. apply Qle_bool_iff; exact Bmin.
  - match goal with I : In (Fin _) s |- _ => specialize (Bmin _ I) end.
    simpl in Bmin. apply Qle_bool_iff; exact Bmin.
  - match goal with I : In (Fin _) s |- _ => specialize (Bmax _ I) end.
    simpl in Bmax. apply Qle_bool_iff; exact Bmax.
Qed.

(* ================================================================== *)
(** ** Facts about frames *)

Lemma concat_empty_r (d : DataFrame) : Pd.concat d DF_empty = d.
Proof. destruct d; reflexivity. Qed.

Lemma concat_one_row (acc : DataFrame) (m v : npfloat) (ps : list (npfloat * npfloat)) :
  Pd.concat (Pd.concat acc (Pd.one_row m v)) (Pd.frame_of ps) =
  Pd.concat acc (Pd.frame_of ((m, v) :: ps)).
Proof.
  destruct acc as [|p], ps as [|q ps]; simpl; try reflexivity.
  rewrite <- app_assoc. reflexivity.
Qed.

Lemma frame_of_nonempty (ps : list (npfloat * npfloat)) :
  ps <> [] -> Pd.frame_of ps = DF_points ps.
Proof. destruct ps; [congruence|reflexivity]. Qed.

Lemma rows_frame_of (ps : list (npfloat * npfloat)) : Pd.rows (Pd.frame_of ps) = ps.
Proof. destruct ps; reflexivity. Qed.

Lemma rows_concat (a b : DataFrame) : Pd.rows (Pd.concat a b) = Pd.rows a ++ Pd.rows b.
Proof. destruct a, b; simpl; rewrite ?app_nil_r; reflexivity. Qed.

(* ================================================================== *)
(** ** The loops of the class *)

Section Loops.

Context {PA : Type} `{PortfolioAssets PA}.
Variable import_module : string -> exn + PyModule PA.
Variable randint : Z -> nat -> Z.

Local Abbreviation W := (@World PA).
Local Abbreviation Stmt := (@M PA).

Lemma bind_ok {A B} (m : Stmt A) (k : A -> Stmt B) (w w' : W) (a : A) :
  m w = (inr a, w') -> bind m k w = k a w'.
Proof. intros E. unfold bind. rewrite E. reflexivity. Qed.

Lemma bind_raise {A B} (m : Stmt A) (k : A -> Stmt B) (w w' : W) (e : exn) :
  m w = (inl e, w') -> bind m k w = (inl e, w').
Proof. intros E. unfold bind. rewrite E. reflexivity. Qed.

Lemma bind_ret {A B} (a : A) (k : A -> Stmt B) (w : W) : bind (ret a) k w = k a w.
Proof. reflexivity. Qed.

Lemma read_holds {A} (field : Self -> attr A) (a : A) (w : W) :
  field (this w) = Holds a -> read field w = (inr (Some a), w).
Proof. intros E. unfold read. rewrite E. reflexivity. Qed.

Lemma read_value {A} (field : Self -> attr A) (a : A) (w : W) :
  field (this w) = Holds a -> bind (read field) not_none w = (inr a, w).
Proof. intros E. unfold bind. rewrite (@read_holds _ _ _ _ E). reflexivity. Qed.

Lemma getitem_expected_return (pts : list (npfloat * npfloat)) :
  Pd.getitem (DF_points pts) "Expected Return" = inr (map fst pts).
Proof. reflexivity. Qed.

Lemma with_assets_id (w : W) : with_assets (fun _ => assets w) w = w.
Proof. destruct w; reflexivity. Qed.

(** The sampler never fails: it hands out the products of the draws with
    the inverse of their row sum and moves the generator past the matrix. *)
Lemma generate_spec (w : W) :
  let n := List.length (ticker_symbols (assets w)) in
  exists batch,
    _generate_random_asset_weight_distribution randint w =
      (inr batch,
       {| assets := assets w;
          rng_pos := rng_pos w + _N_SIMULATION_MEAN_VAR * n;
          this := this w |}) /\
    nrows batch = _N_SIMULATION_MEAN_VAR /\
    ncols batch = n /\
    forall i j, i < _N_SIMULATION_MEAN_VAR ->
      cell batch i j =
        fmul (of_Z (randint 100 (rng_pos w + i * n + j)))
             (fdiv (Fin 1) (of_Z (row_sum randint (rng_pos w) n i))).
Proof.
  intros n. eexists. split; [reflexivity|].
  split; [reflexivity|]. split; [reflexivity|].
  intros i j L. cbv beta iota delta [Np.T Np.mul_broadcast cell nrows ncols].
  f_equal. unfold Np.scalar_div, Np.sum_axis1.
  cbv beta iota delta [cell nrows ncols].
  rewrite map_map. rewrite nth_map_seq by exact L. reflexivity.
Qed.

(** The simulation loop over the rows [a .. a+n-1] of a matrix. *)
Lemma simulate_loop (batch : ndarray2 npfloat) (n : nat) :
  forall a acc (w : W), a + n <= nrows batch ->
    let rows := map (fun i => map (cell batch i) (seq 0 (ncols batch))) (seq a n) in
    for_each (seq a n) (simulate_row batch) acc w =
      (inr (Pd.concat acc (Pd.frame_of (simulated rows (assets w)))),
       with_assets (assign_rows rows) w).
Proof.
  induction n as [|n IH]; intros a acc w L rows.
  - simpl. unfold ret. rewrite concat_empty_r. destruct w; reflexivity.
  - subst rows. simpl seq. simpl map. simpl for_each.
    unfold bind at 1. unfold simulate_row at 1.
    unfold Np.getitem2. destruct (Nat.ltb_spec a (nrows batch)) as [_|?]; [|lia].
    cbn [lift bind ret modify gets].
    rewrite IH by lia. cbn [simulated assign_rows fold_left with_assets assets].
    rewrite concat_one_row. destruct w; reflexivity.
Qed.

Lemma simulated_length (rows : list (list npfloat)) :
  forall pa : PA, List.length (simulated rows pa) = List.length rows.
Proof.
  induction rows as [|r rows IH]; intros pa; simpl; [reflexivity|].
  rewrite IH. reflexivity.
Qed.

Lemma simulated_nth (rows : list (list npfloat)) :
  forall (pa : PA) i, i < List.length rows ->
    nth_error (simulated rows pa) i =
      Some (expected_return (set_weights (assign_rows (firstn i rows) pa) (nth i rows [])),
            volatility (set_weights (assign_rows (firstn i rows) pa) (nth i rows []))).
Proof.
  induction rows as [|r rows IH]; intros pa i L; simpl in L; [lia|].
  destruct i as [|i]; [reflexivity|].
  simpl. rewrite IH by lia. reflexivity.
Qed.

(** The simulator never fails: it reads one point per row of the matrix the
    sampler returned. *)
Lemma simulate_spec (w : W) :
  exists batch w1,
    _generate_random_asset_weight_distribution randint w = (inr batch, w1) /\
    List.length (Np.rows_of batch) = _N_SIMULATION_MEAN_VAR /\
    _simulate_expected_return_volatility_distribution randint w =
      (inr (DF_points (simulated (Np.rows_of batch) (assets w))),
       with_assets (assign_rows (Np.rows_of batch)) w1).
Proof.
  destruct (generate_spec w) as (batch & G & R & C & _).
  eexists batch, _. split; [exact G|].
  assert (Len : List.length (Np.rows_of batch) = _N_SIMULATION_MEAN_VAR)
    by (unfold Np.rows_of; rewrite length_map, length_seq; exact R).
  split; [exact Len|].
  unfold _simulate_expected_return_volatility_distribution.
  unfold bind at 1. cbv beta iota delta [gets].
  rewrite (@bind_ok _ _ _ _ _ _ _ G).
  match goal with |- for_each _ _ _ ?w1 = _ => set (W1 := w1) end.
  unfold range.
  pose proof (@simulate_loop batch _N_SIMULATION_MEAN_VAR 0 DF_empty W1) as SL.
  cbv zeta in SL. rewrite SL by (rewrite R; lia). clear SL.
  replace (map (fun i => map (cell batch i) (seq 0 (ncols batch)))
               (seq 0 _N_SIMULATION_MEAN_VAR))
    with (Np.rows_of batch) by (unfold Np.rows_of; rewrite R; reflexivity).
  change (assets W1) with (assets w).
  rewrite frame_of_nonempty; [reflexivity|].
  intros E. pose proof (simulated_length (Np.rows_of batch) (assets w)) as SL.
  rewrite E, Len in SL. discriminate SL.
Qed.

Lemma skipn_cons_nth {A} (l : list A) :
  forall a t, nth_error l a = Some t -> skipn a l = t :: skipn (S a) l.
Proof.
  induction l as [|x l IH]; intros [|a] t E; simpl in E; try discriminate.
  - injection E as ->. reflexivity.
  - change (skipn a l = t :: skipn (S a) l). apply IH. exact E.
Qed.

Lemma frontier_step_spec (cls : OptimizerClass PA) (targets : list npfloat)
    (a : nat) (t : npfloat) (acc : DataFrame) (w : W) :
  _portfolio_optimizer_class (this w) = Holds (PyClass cls) ->
  nth_error targets a = Some t ->
  frontier_step targets a acc w =
    (inr (fst (visit cls (acc, assets w) t)),
     with_assets (fun _ => snd (visit cls (acc, assets w) t)) w).
Proof.
  intros C E. unfold frontier_step, Np.getitem1. rewrite E.
  cbv beta iota delta [bind lift ret read not_none as_class]. rewrite C.
  cbv beta iota. unfold visit. cbn [fst snd].
  destruct (fit cls (new cls t) (assets w)) as [fitted pa].
  destruct (optimal_variance cls fitted) as [v|]; reflexivity.
Qed.

(** The frontier loop over the targets [a .. a+n-1]. *)
Lemma frontier_loop (cls : OptimizerClass PA) (targets : list npfloat) (n : nat) :
  forall a acc (w : W),
    _portfolio_optimizer_class (this w) = Holds (PyClass cls) ->
    a + n <= List.length targets ->
    for_each (seq a n) (frontier_step targets) acc w =
      (inr (fst (fold_left (visit cls) (firstn n (skipn a targets)) (acc, assets w))),
       with_assets
         (fun _ => snd (fold_left (visit cls) (firstn n (skipn a targets)) (acc, assets w)))
         w).
Proof.
  induction n as [|n IH]; intros a acc w C L.
  - simpl. unfold ret. rewrite with_assets_id. reflexivity.
  - destruct (nth_error targets a) as [t|] eqn:E;
      [|apply nth_error_None in E; lia].
    rewrite (skipn_cons_nth _ _ E).
    cbn [seq for_each firstn fold_left].
    rewrite (@bind_ok _ _ _ _ _ _ _ (frontier_step_spec targets a acc w C E)).
    rewrite IH by (try exact C; try lia).
    cbn [assets with_assets this rng_pos].
    rewrite <- surjective_pairing. reflexivity.
Qed.

Lemma visit_outcomes (cls : OptimizerClass PA) (targets : list npfloat) :
  forall acc pa,
    fst (fold_left (visit cls) targets (acc, pa)) =
    Pd.concat acc (Pd.frame_of (flat_map feasible (outcomes cls targets pa))).
Proof.
  induction targets as [|t rest IH]; intros acc pa.
  - simpl. rewrite concat_empty_r. reflexivity.
  - cbn [fold_left outcomes]. unfold visit at 2. cbn [fst snd].
    destruct (fit cls (new cls t) pa) as [fitted pa'].
    cbn [flat_map]. unfold feasible at 1. cbn [fst snd].
    destruct (optimal_variance cls fitted) as [v|]; rewrite IH.
    + rewrite concat_one_row. reflexivity.
    + reflexivity.
Qed.

Lemma outcomes_targets (cls : OptimizerClass PA) (targets : list npfloat) :
  forall pa, map fst (outcomes cls targets pa) = targets.
Proof.
  induction targets as [|t rest IH]; intros pa; [reflexivity|].
  cbn [outcomes]. destruct (fit cls (new cls t) pa) as [fitted pa'].
  cbn [map fst]. rewrite IH. reflexivity.
Qed.

(** The sweep on a frame that has the 'Expected Return' column: one pass
    over the targets, first to last. *)
Lemma compute_spec (cls : OptimizerClass PA) (pts : list (npfloat * npfloat)) (w : W) :
  _portfolio_optimizer_class (this w) = Holds (PyClass cls) ->
  _mean_var_dist (this w) = Holds (DF_points pts) ->
  let targets :=
    Np.linspace (Pd.min (map fst pts)) (Pd.max (map fst pts))
                _N_SIMULATION_EFFICIENT_FRONTIER in
  let final := fold_left (visit cls) targets (DF_empty, assets w) in
  _compute_efficient_frontier_path randint w =
    (inr (fst final), with_assets (fun _ => snd final) w).
Proof.
  intros C D targets final.
  unfold _compute_efficient_frontier_path.
  rewrite (@bind_ok _ _ _ _ _ _ _ (@read_holds _ _ _ _ D)).
  rewrite bind_ret.
  rewrite (@bind_ok _ _ _ _ _ _ _ (@read_value _ _ _ _ D)).
  rewrite getitem_expected_return. cbn [lift]. rewrite bind_ret.
  rewrite (@bind_ok _ _ _ _ _ _ _ (@read_value _ _ _ _ D)).
  rewrite getitem_expected_return. cbn [lift]. rewrite bind_ret.
  fold targets. unfold range.
  rewrite (@frontier_loop cls targets _ 0 DF_empty w C)
    by (unfold targets; rewrite linspace_length; lia).
  cbn [skipn].
  rewrite firstn_all2 by (unfold targets; rewrite linspace_length; lia).
  reflexivity.
Qed.

End Loops.

(* ================================================================== *)
(** ** Sums of draws *)

Lemma fold_add_shift (l : list Z) :
  forall z, fold_left Z.add l z = (z + fold_left Z.add l 0)%Z.
Proof.
  induction l as [|x l IH]; intros z; simpl; [lia|].
  rewrite IH, (IH x). lia.
Qed.

Lemma fold_add_nonneg (l : list Z) :
  Forall (fun r => (0 <= r)%Z) l -> (0 <= fold_left Z.add l 0)%Z.
Proof.
  induction 1 as [|x l Px Pl IH]; simpl; [lia|].
  rewrite fold_add_shift. lia.
Qed.

(** The float sum of the draws scaled by [c] is the integer sum scaled by
    [c]. *)
Lemma sum_scaled (c : Q) (l : list Z) :
  forall a, exists q,
    fold_left fadd (map (fun r => Fin (inject_Z r * c)) l) (Fin a) = Fin q /\
    q == a + inject_Z (fold_left Z.add l 0%Z) * c.
Proof.
  induction l as [|x l IH]; intros a; simpl.
  - eexists; split; [reflexivity|]. unfold inject_Z. ring.
  - destruct (IH (a + inject_Z x * c)%Q) as (q & E & Q). exists q. split; [exact E|].
    rewrite Q, (fold_add_shift l x), inject_Z_plus. ring.
Qed.

(* ================================================================== *)
(** ** The sampler and the simulator *)

Section Sampling.

Context {PA : Type} `{PortfolioAssets PA}.
Variable randint : Z -> nat -> Z.

Local Abbreviation W := (@World PA).

(** The row [i] of the matrix the sampler returns: every draw of the row
    times the inverse of the row sum. *)
Lemma generate_row (w : W) (i : nat) :
  i < _N_SIMULATION_MEAN_VAR ->
  let n := List.length (ticker_symbols (assets w)) in
  exists batch,
    _generate_random_asset_weight_distribution randint w =
      (inr batch,
       {| assets := assets w;
          rng_pos := rng_pos w + _N_SIMULATION_MEAN_VAR * n;
          this := this w |}) /\
    Np.getitem2 batch i =
      inr (map (fun r => fmul (of_Z r) (fdiv (Fin 1) (of_Z (row_sum randint (rng_pos w) n i))))
               (draws_row randint (rng_pos w) n i)).
Proof.
  intros L n. destruct (generate_spec randint w) as (batch & G & R & C & V).
  exists batch. split; [exact G|].
  unfold Np.getitem2. rewrite R.
  destruct (Nat.ltb_spec i _N_SIMULATION_MEAN_VAR) as [_|?]; [|lia].
  f_equal. rewrite C. fold n. unfold draws_row. rewrite map_map.
  apply map_ext. intros j. apply V. exact L.
Qed.

(** C1: the Distribution Simulator returns exactly 2000 points, one per row
    of the sampled weight matrix and in row order: the i-th point holds the
    expected return and the volatility read from the provider right after
    row i was assigned as its weights, the rows before it having been
    assigned in turn. *)
Theorem simulation_reads_one_point_per_row (w : W) :
  exists batch w1 pts w2,
    _generate_random_asset_weight_distribution randint w = (inr batch, w1) /\
    List.length (Np.rows_of batch) = 2000 /\
    _simulate_expected_return_volatility_distribution randint w =
      (inr (DF_points pts), w2) /\
    List.length pts = 2000 /\
    (forall i, i < 2000 ->
       let before := assign_rows (firstn i (Np.rows_of batch)) (assets w) in
       let current := set_weights before (nth i (Np.rows_of batch) []) in
       nth_error pts i = Some (expected_return current, volatility current)) /\
    assets w2 = assign_rows (Np.rows_of batch) (assets w).
Proof.
  destruct (simulate_spec randint w) as (batch & w1 & G & Len & S).
  assert (A1 : assets w1 = assets w).
  { destruct (generate_spec randint w) as (b' & G' & _).
    rewrite G in G'. injection G' as _ ->. reflexivity. }
  exists batch, w1, (simulated (Np.rows_of batch) (assets w)),
         (with_assets (assign_rows (Np.rows_of batch)) w1).
  split; [exact G|]. split; [exact Len|]. split; [exact S|].
  split; [rewrite simulated_length; exact Len|].
  split.
  - intros i L. cbv zeta. apply simulated_nth.
    rewrite Len. exact L.
  - cbn [assets with_assets]. rewrite A1. reflexivity.
Qed.

(** C2: in every row of the returned weight matrix whose draws, all in
    [0, 100), have a nonzero sum, each entry is the draw divided by the row
    sum, the entries sum to 1 and none is negative. *)
Theorem sampler_normalises_rows (w : W) (i : nat) :
  let n := List.length (ticker_symbols (assets w)) in
  let draws := draws_row randint (rng_pos w) n i in
  let total := row_sum randint (rng_pos w) n i in
  i < 2000 ->
  (forall k, (0 <= randint 100 k < 100)%Z) ->
  total <> 0%Z ->
  exists batch w' row,
    _generate_random_asset_weight_distribution randint w = (inr batch, w') /\
    Np.getitem2 batch i = inr row /\
    Forall2 (fun x r => feq x (Fin (inject_Z r / inject_Z total))) row draws /\
    feq (Np.sum row) (Fin 1) /\
    Forall (fun x => fle (Fin 0) x) row.
Proof.
  intros n draws total L B NZ.
  destruct (generate_row w L) as (batch & G & R).
  fold n in G, R. fold total in R. fold draws in R.
  assert (TQ : ~ inject_Z total == 0) by (apply inject_Z_nonzero; exact NZ).
  assert (Pos : Forall (fun r => (0 <= r)%Z) draws).
  { apply Forall_forall. intros r I. unfold draws, draws_row in I.
    apply in_map_iff in I. destruct I as (j & <- & _). apply B. }
  assert (TP : (0 < total)%Z).
  { pose proof (fold_add_nonneg Pos) as P. unfold total, row_sum. fold draws. 
    unfold total, row_sum in NZ. fold draws in NZ. lia. }
  unfold of_Z in R. rewrite (fdiv_fin _ TQ) in R.
  assert (E : map (fun r => fmul (Fin (inject_Z r)) (Fin (1 / inject_Z total))) draws =
              map (fun r => Fin (inject_Z r * (1 / inject_Z total))) draws)
    by reflexivity.
  rewrite E in R. clear E.
  eexists batch, _, _. split; [exact G|]. split; [exact R|].
  split; [|split].
  - clear. induction draws as [|r l IH]; simpl; constructor; [|exact IH].
    simpl. unfold Qdiv. ring.
  - unfold Np.sum.
    destruct (sum_scaled (1 / inject_Z total) draws 0) as (q & E & Q).
    rewrite E. simpl. rewrite Q.
    change (fold_left Z.add draws 0%Z) with total. field. exact TQ.
  - apply Forall_forall. intros x I. apply in_map_iff in I.
    destruct I as (r & <- & I). unfold fle. simpl. apply Qle_bool_iff.
    rewrite Forall_forall in Pos. specialize (Pos r I).
    apply Qmult_le_0_compat.
    + change 0%Q with (inject_Z 0). rewrite <- Zle_Qle. exact Pos.
    + unfold Qdiv. rewrite Qmult_1_l. apply Qlt_le_weak, Qinv_lt_0_compat.
      change 0%Q with (inject_Z 0). rewrite <- Zlt_Qlt. exact TP.
Qed.

(** C8: when the draws of a row sum to 0 the sampler divides 1.0 by zero:
    it neither draws the row again nor fails, but returns the matrix after
    exactly one batch of draws, the row holding every draw multiplied by the
    infinite quotient [1.0 / 0], hence no finite weight at all. *)
Theorem sampler_divides_by_zero_row_sum (w : W) (i : nat) :
  let n := List.length (ticker_symbols (assets w)) in
  let draws := draws_row randint (rng_pos w) n i in
  i < 2000 ->
  row_sum randint (rng_pos w) n i = 0%Z ->
  exists batch row,
    _generate_random_asset_weight_distribution randint w =
      (inr batch,
       {| assets := assets w; rng_pos := rng_pos w + 2000 * n; this := this w |}) /\
    Np.getitem2 batch i = inr row /\
    row = map (fun r => fmul (of_Z r) (fdiv (Fin 1) (of_Z 0))) draws /\
    fdiv (Fin 1) (of_Z 0) = PInf /\
    Forall (fun x => isfinite x = false) row.
Proof.
  intros n draws L Z0.
  destruct (generate_row w L) as (batch & G & R).
  fold n in G, R. fold draws in R. rewrite Z0 in R.
  eexists batch, _. split; [exact G|]. split; [exact R|].
  split; [reflexivity|]. split; [reflexivity|].
  apply Forall_forall. intros x I. apply in_map_iff in I.
  destruct I as (r & <- & _).
  change (fdiv (Fin 1) (of_Z 0)) with PInf. unfold of_Z, fmul, sign_inf.
  destruct (inject_Z r ?= 0)%Q; reflexivity.
Qed.

End Sampling.

(* ================================================================== *)
(** ** The targets of the sweep *)

(** Every item of [np.linspace] between finite end points, the last one
    included, sits at its multiple of the step. *)
Lemma linspace_closed (a b : Q) (num i : nat) :
  i < num -> 1 < num ->
  exists q,
    nth i (Np.linspace (Fin a) (Fin b) num) NaN = Fin q /\
    q == a + inject_Z (Z.of_nat i) * ((b - a) / inject_Z (Z.of_nat (num - 1))).
Proof.
  intros L N. destruct (Nat.eq_dec i (num - 1)) as [->|Ne].
  - exists b. split; [apply linspace_last; exact N|].
    field. apply inject_Z_nonzero. lia.
  - apply linspace_nth. lia.
Qed.


Lemma linspace_monotone (a b : Q) (num i j : nat) :
  (a <= b)%Q -> i <= j -> j < num -> 1 < num ->
  fle (nth i (Np.linspace (Fin a) (Fin b) num) NaN)
      (nth j (Np.linspace (Fin a) (Fin b) num) NaN).
Proof.
  intros AB IJ L N.
  destruct (@linspace_closed a b num i) as (q & E & Q); try lia.
  destruct (@linspace_closed a b num j) as (q' & E' & Q'); try lia.
  rewrite E, E'. unfold fle. simpl. apply Qle_bool_iff. rewrite Q, Q'.
  apply Qplus_le_r. apply Qmult_le_compat_r.
  - rewrite <- Zle_Qle. lia.
  - apply Qle_shift_div_l.
    + change 0%Q with (inject_Z 0). rewrite <- Zlt_Qlt. lia.
    + rewrite Qmult_0_l. lra.
Qed.

Lemma pointwise_sorted {A} (R : A -> A -> Prop) (d : A) (l : list A) :
  (forall i j, i < j -> j < List.length l -> R (nth i l d) (nth j l d)) ->
  StronglySorted R l.
Proof.
  induction l as [|x l IH]; intros P; constructor.
  - apply IH. intros i j IJ L. apply (P (S i) (S j)); simpl; lia.
  - apply Forall_forall. intros y I.
    destruct (In_nth _ _ d I) as (k & K & <-).
    apply (P 0 (S k)); simpl; lia.
Qed.

Lemma linspace_sorted (a b : Q) (num : nat) :
  (a <= b)%Q -> 1 < num ->
  StronglySorted fle (Np.linspace (Fin a) (Fin b) num).
Proof.
  intros AB N. apply (@pointwise_sorted _ fle NaN).
  intros i j IJ L. rewrite linspace_length in L.
  apply linspace_monotone; try assumption; lia.
Qed.

(* ================================================================== *)
(** ** The points kept by the sweep *)

Lemma feasible_length (seen : list (npfloat * option npfloat)) :
  List.length (flat_map feasible seen) <= List.length seen.
Proof.
  induction seen as [|[t [v|]] rest IH]; simpl; lia.
Qed.

Lemma feasible_none (seen : list (npfloat * option npfloat)) :
  (forall o, In o seen -> snd o = None) -> flat_map feasible seen = [].
Proof.
  induction seen as [|[t ov] rest IH]; intros N; [reflexivity|].
  simpl. unfold feasible at 1. rewrite (N (t, ov)) by (left; reflexivity).
  apply IH. intros o I. apply N. right; exact I.
Qed.

Lemma feasible_in (seen : list (npfloat * option npfloat)) (x : npfloat) :
  In x (map fst (flat_map feasible seen)) -> In x (map fst seen).
Proof.
  induction seen as [|[t [v|]] rest IH]; simpl; intros I; auto.
  destruct I as [I|I]; auto.
Qed.

Lemma feasible_sorted (R : npfloat -> npfloat -> Prop)
    (seen : list (npfloat * option npfloat)) :
  StronglySorted R (map fst seen) ->
  StronglySorted R (map fst (flat_map feasible seen)).
Proof.
  induction seen as [|[t ov] rest IH]; intros S; [constructor|].
  simpl in S. apply StronglySorted_inv in S. destruct S as [S F].
  destruct ov as [v|]; simpl; [|apply IH; exact S].
  constructor; [apply IH; exact S|].
  apply Forall_forall. intros x I. apply feasible_in in I.
  rewrite Forall_forall in F. apply F. exact I.
Qed.

Section Frontier.

Context {PA : Type} `{PortfolioAssets PA}.
Variable randint : Z -> nat -> Z.

Local Abbreviation W := (@World PA).


(** C4: on a distribution that has its columns the sweep never fails.  For
    every target, in the order of the targets, it keeps the point
    (target, optimal_variance) when the optimizer reports a variance and
    drops the target otherwise, so the frontier holds exactly the feasible
    targets in target order, at most 100 of them, in ascending order when
    the returns are finite; an optimizer that never reports a variance
    leaves the empty frame. *)
Theorem sweep_keeps_feasible_targets
    (cls : OptimizerClass PA) (pts : list (npfloat * npfloat)) (w : W) :
  _portfolio_optimizer_class (this w) = Holds (PyClass cls) ->
  _mean_var_dist (this w) = Holds (DF_points pts) ->
  let targets := Np.linspace (Pd.min (map fst pts)) (Pd.max (map fst pts)) 100 in
  let seen := outcomes cls targets (assets w) in
  exists frontier w',
    _compute_efficient_frontier_path randint w = (inr frontier, w') /\
    map fst seen = targets /\
    Pd.rows frontier = flat_map feasible seen /\
    List.length (Pd.rows frontier) <= 100 /\
    (pts <> [] -> forallb isfinite (map fst pts) = true ->
     StronglySorted fle (map fst (Pd.rows frontier))) /\
    ((forall o, In o seen -> snd o = None) -> frontier = DF_empty).
Proof.
  intros C D targets seen.
  pose proof (compute_spec randint w C D) as S. cbv zeta in S.
  fold targets in S. rewrite visit_outcomes in S. fold seen in S.
  cbn [Pd.concat] in S.
  exists (Pd.frame_of (flat_map feasible seen)),
         (with_assets
            (fun _ => snd (fold_left (visit cls) targets (DF_empty, assets w))) w).
  split; [exact S|].
  assert (T : map fst seen = targets) by apply outcomes_targets.
  split; [exact T|]. split; [apply rows_frame_of|].
  rewrite rows_frame_of.
  split.
  { eapply Nat.le_trans; [apply feasible_length|].
    rewrite <- (length_map fst), T. unfold targets.
    rewrite linspace_length. apply Nat.le_refl. }
  split.
  { intros N F. apply feasible_sorted. rewrite T.
    assert (N' : map fst pts <> []) by (destruct pts; [congruence|discriminate]).
    destruct (@min_max_finite (map fst pts) N' F) as (lo & hi & Emin & Emax & LH & _).
    unfold targets. rewrite Emin, Emax. apply linspace_sorted; [exact LH|lia]. }
  intros A. rewrite (feasible_none _ A). reflexivity.
Qed.

(** C6 (as the code has it): the sweep on the frame [pd.DataFrame()], which
    has no rows and no columns, fails with a [KeyError] at the lookup of the
    'Expected Return' column, before any target is set up: the provider, the
    generator and the object are left as they were. *)
Theorem sweep_on_frame_without_columns_raises_KeyError (w : W) :
  _mean_var_dist (this w) = Holds DF_empty ->
  _compute_efficient_frontier_path randint w = (inl KeyError, w).
Proof.
  intros D. unfold _compute_efficient_frontier_path.
  rewrite (@bind_ok _ _ _ _ _ _ _ _ (@read_holds _ _ _ _ _ D)).
  rewrite bind_ret.
  rewrite (@bind_ok _ _ _ _ _ _ _ _ (@read_value _ _ _ _ _ D)).
  reflexivity.
Qed.

(** C9: when the least and the greatest expected return of the distribution
    are one finite value, the only divisor used for the targets is 99, not
    zero, and the 100 targets all equal that value; the sweep passes over
    these targets. *)
Theorem sweep_targets_of_single_return
    (cls : OptimizerClass PA) (pts : list (npfloat * npfloat)) (w : W) (lo hi : Q) :
  _portfolio_optimizer_class (this w) = Holds (PyClass cls) ->
  _mean_var_dist (this w) = Holds (DF_points pts) ->
  Pd.min (map fst pts) = Fin lo ->
  Pd.max (map fst pts) = Fin hi ->
  lo == hi ->
  let targets := Np.linspace (Pd.min (map fst pts)) (Pd.max (map fst pts)) 100 in
  Np.linspace_div 100 = 99 /\
  feq0 (of_nat (Np.linspace_div 100)) = false /\
  List.length targets = 100 /\
  Forall (fun t => feq t (Fin lo)) targets /\
  _compute_efficient_frontier_path randint w =
    (inr (fst (fold_left (visit cls) targets (DF_empty, assets w))),
     with_assets (fun _ => snd (fold_left (visit cls) targets (DF_empty, assets w))) w).
Proof.
  intros C D Emin Emax E targets.
  split; [reflexivity|]. split; [reflexivity|].
  split; [apply linspace_length|].
  split; [|apply (compute_spec randint w C D)].
  apply Forall_forall. intros t I.
  destruct (In_nth _ _ NaN I) as (i & L & <-).
  unfold targets in *. rewrite linspace_length in L. rewrite Emin, Emax.
  destruct (@linspace_closed lo hi 100 i) as (q & Eq & Q); try lia.
  rewrite Eq. simpl. rewrite Q, E. unfold Qminus. field.
  discriminate.
Qed.

End Frontier.

(* ================================================================== *)
(** ** Construction and the properties *)

Section Construction.

Context {PA : Type} `{PortfolioAssets PA}.
Variable import_module : string -> exn + PyModule PA.
Variable randint : Z -> nat -> Z.

Local Abbreviation W := (@World PA).

Lemma bind_modify {B} (f : W -> W) (k : unit -> M B) (w : W) :
  bind (modify f) k w = k tt (f w).
Proof. reflexivity. Qed.

(** A name whose module imports and holds the attribute makes the loader
    store that attribute, whatever its kind. *)
Lemma load_resolved (name m c : string) (md : PyModule PA) (obj : PyObject PA) (w : W) :
  rsplit1 "." name = [m; c] ->
  import_module m = inr md ->
  md c = Some obj ->
  _load_portfolio_optimizer_class import_module (Some name) w =
    (inr tt, with_this (set_portfolio_optimizer_class obj) w).
Proof.
  intros S I G. unfold _load_portfolio_optimizer_class. rewrite S.
  unfold bind. rewrite I. cbn [lift ret]. rewrite G. reflexivity.
Qed.

(** The loader either stores the attribute the name leads to, or raises: a
    [ValueError] for a name without a dot, the error of the import, or an
    [AttributeError] for an attribute the module lacks. *)
Lemma load_cases (name : string) (w : W) :
  (exists m c md obj,
     rsplit1 "." name = [m; c] /\ import_module m = inr md /\ md c = Some obj /\
     _load_portfolio_optimizer_class import_module (Some name) w =
       (inr tt, with_this (set_portfolio_optimizer_class obj) w)) \/
  (exists e,
     _load_portfolio_optimizer_class import_module (Some name) w = (inl e, w) /\
     ((e = ValueError /\ forall m c, rsplit1 "." name <> [m; c]) \/
      (exists m c, rsplit1 "." name = [m; c] /\ import_module m = inl e) \/
      (e = AttributeError /\
       exists m c md, rsplit1 "." name = [m; c] /\ import_module m = inr md /\ md c = None))).
Proof.
  unfold _load_portfolio_optimizer_class.
  destruct (rsplit1 "." name) as [|m [|c [|x rest]]] eqn:S.
  - right. exists ValueError. split; [reflexivity|]. left. split; [reflexivity|discriminate].
  - right. exists ValueError. split; [reflexivity|]. left. split; [reflexivity|discriminate].
  - destruct (import_module m) as [e|md] eqn:I.
    + right. exists e. split; [reflexivity|].
      right; left. exists m, c. auto.
    + destruct (md c) as [obj|] eqn:G.
      * left. exists m, c, md, obj. repeat split; auto.
        unfold bind. cbn [lift ret]. rewrite G. reflexivity.
      * right. exists AttributeError.
        split; [unfold bind; cbn [lift ret]; rewrite G; reflexivity|].
        right; right. split; [reflexivity|]. exists m, c, md. auto.
  - right. exists ValueError. split; [reflexivity|]. left. split; [reflexivity|discriminate].
Qed.

(** The simulator leaves the attributes of the object alone. *)
Lemma simulate_keeps_this (w : W) :
  exists pts w2,
    _simulate_expected_return_volatility_distribution randint w = (inr (DF_points pts), w2) /\
    List.length pts = _N_SIMULATION_MEAN_VAR /\
    this w2 = this w.
Proof.
  destruct (simulate_spec randint w) as (batch & w1 & G & Len & S).
  destruct (generate_spec randint w) as (b' & G' & _).
  rewrite G in G'. injection G' as _ ->.
  eexists _, _. split; [exact S|]. split; [|reflexivity].
  rewrite simulated_length. exact Len.
Qed.

Lemma sweep_length (cls : OptimizerClass PA) (targets : list npfloat) (pa : PA) :
  List.length (Pd.rows (fst (fold_left (visit cls) targets (DF_empty, pa)))) <=
  List.length targets.
Proof.
  rewrite visit_outcomes. cbn [Pd.concat]. rewrite rows_frame_of.
  eapply Nat.le_trans; [apply feasible_length|].
  rewrite <- (length_map fst), outcomes_targets. apply Nat.le_refl.
Qed.

(** With a class in hand the rest of [__init__] cannot fail: it stores the
    frame of the simulator, then the frame of the sweep run on it. *)
Lemma init_after_load (cls : OptimizerClass PA) (w1 : W) :
  _portfolio_optimizer_class (this w1) = Holds (PyClass cls) ->
  exists d w2 f w3,
    _simulate_expected_return_volatility_distribution randint w1 = (inr d, w2) /\
    _compute_efficient_frontier_path randint (with_this (set_mean_var_dist d) w2) = (inr f, w3) /\
    List.length (Pd.rows d) = _N_SIMULATION_MEAN_VAR /\
    List.length (Pd.rows f) <= _N_SIMULATION_EFFICIENT_FRONTIER /\
    this w3 = set_mean_var_dist d (this w1) /\
    bind (_simulate_expected_return_volatility_distribution randint) (fun d =>
    bind (modify (with_this (set_mean_var_dist d))) (fun _ =>
    bind (_compute_efficient_frontier_path randint) (fun f =>
    modify (with_this (set_efficient_frontier f))))) w1 =
      (inr tt, with_this (set_efficient_frontier f) w3).
Proof.
  intros C.
  destruct (simulate_keeps_this w1) as (pts & w2 & S & Len & T).
  set (w2' := with_this (set_mean_var_dist (DF_points pts)) w2).
  assert (C2 : _portfolio_optimizer_class (this w2') = Holds (PyClass cls))
    by (unfold w2'; cbn; rewrite T; exact C).
  assert (D2 : _mean_var_dist (this w2') = Holds (DF_points pts)) by reflexivity.
  pose proof (compute_spec randint w2' C2 D2) as F. cbv zeta in F.
  eexists _, w2, _, _. split; [exact S|]. split; [exact F|].
  split; [exact Len|].
  split.
  { eapply Nat.le_trans; [apply sweep_length|].
    rewrite linspace_length. apply Nat.le_refl. }
  split; [cbn; rewrite T; reflexivity|].
  rewrite (@bind_ok _ _ _ _ _ _ _ _ S), bind_modify.
  fold w2'. rewrite (@bind_ok _ _ _ _ _ _ _ _ F). reflexivity.
Qed.

(** With an object that is not a class the simulation still runs, and the
    sweep raises a [TypeError] at its first target. *)
Lemma init_after_load_other (w1 : W) :
  _portfolio_optimizer_class (this w1) = Holds PyOther ->
  exists d w2,
    _simulate_expected_return_volatility_distribution randint w1 = (inr d, w2) /\
    List.length (Pd.rows d) = _N_SIMULATION_MEAN_VAR /\
    bind (_simulate_expected_return_volatility_distribution randint) (fun d =>
    bind (modify (with_this (set_mean_var_dist d))) (fun _ =>
    bind (_compute_efficient_frontier_path randint) (fun f =>
    modify (with_this (set_efficient_frontier f))))) w1 =
      (inl TypeError, with_this (set_mean_var_dist d) w2).
Proof.
  intros C.
  destruct (simulate_keeps_this w1) as (pts & w2 & S & Len & T).
  set (w2' := with_this (set_mean_var_dist (DF_points pts)) w2).
  assert (C2 : _portfolio_optimizer_class (this w2') = Holds PyOther)
    by (unfold w2'; cbn; rewrite T; exact C).
  assert (D2 : _mean_var_dist (this w2') = Holds (DF_points pts)) by reflexivity.
  exists (DF_points pts), w2. split; [exact S|]. split; [exact Len|].
  rewrite (@bind_ok _ _ _ _ _ _ _ _ S), bind_modify. fold w2'.
  apply bind_raise.
  unfold _compute_efficient_frontier_path.
  rewrite (@bind_ok _ _ _ _ _ _ _ _ (@read_holds _ _ _ _ _ D2)).
  rewrite bind_ret.
  rewrite (@bind_ok _ _ _ _ _ _ _ _ (@read_value _ _ _ _ _ D2)).
  rewrite getitem_expected_return. cbn [lift]. rewrite bind_ret.
  rewrite (@bind_ok _ _ _ _ _ _ _ _ (@read_value _ _ _ _ _ D2)).
  rewrite getitem_expected_return. cbn [lift]. rewrite bind_ret.
  set (targets := Np.linspace _ _ _).
  change (range _N_SIMULATION_EFFICIENT_FRONTIER) with (0 :: seq 1 99).
  cbn [for_each]. apply bind_raise.
  destruct (nth_error targets 0) as [t|] eqn:E.
  - unfold frontier_step, Np.getitem1. rewrite E.
    cbv beta iota delta [bind lift ret read not_none as_class raise]. rewrite C2.
    reflexivity.
  - apply nth_error_None in E. unfold targets in E.
    rewrite linspace_length in E. inversion E.
Qed.


(** C10: construction without a class name, the default [None], raises an
    [AttributeError] at the split of the name, whatever the provider, and
    nothing else has happened by then. *)
Theorem construction_fails_on_default_name (pa : PA) (pos : nat) :
  construct import_module randint pa pos None =
    (inl AttributeError, {| assets := pa; rng_pos := pos; this := fresh |}).
Proof. reflexivity. Qed.

Lemma calls_stored (d f : DataFrame) (w : W) :
  _mean_var_dist (this w) = Holds d ->
  _efficient_frontier (this w) = Holds f ->
  forall l : list accessor,
    calls l w =
      (inr (map (fun a => match a with
                          | Get_mean_variance_distribution => Some d
                          | Get_efficient_frontier => Some f
                          end) l), w).
Proof.
  intros D F. induction l as [|a l IH]; [reflexivity|].
  cbn [calls map].
  assert (E : call a w = (inr match a with
                              | Get_mean_variance_distribution => Some d
                              | Get_efficient_frontier => Some f
                              end, w)).
  { destruct a; unfold call, mean_variance_distribution, efficient_frontier;
      apply read_holds; assumption. }
  rewrite (@bind_ok _ _ _ _ _ _ _ _ E), (@bind_ok _ _ _ _ _ _ _ _ IH). reflexivity.
Qed.

(** C7: once construction has returned, both frames are stored in the
    object: the one the simulator returned, with its 2000 points, and the
    one the sweep returned on it.  Any sequence of calls of the two
    properties returns these stored frames and changes nothing: no draw, no
    write to the provider, no write to the object. *)
Theorem properties_return_stored_frames
    (pa : PA) (pos : nat) (name : option string) (w' : W) :
  construct import_module randint pa pos name = (inr tt, w') ->
  exists d f w1 w2 w3,
    _simulate_expected_return_volatility_distribution randint w1 = (inr d, w2) /\
    _compute_efficient_frontier_path randint (with_this (set_mean_var_dist d) w2) = (inr f, w3) /\
    w' = with_this (set_efficient_frontier f) w3 /\
    _mean_var_dist (this w') = Holds d /\
    _efficient_frontier (this w') = Holds f /\
    List.length (Pd.rows d) = 2000 /\
    List.length (Pd.rows f) <= 100 /\
    forall l : list accessor,
      calls l w' =
        (inr (map (fun a => match a with
                            | Get_mean_variance_distribution => Some d
                            | Get_efficient_frontier => Some f
                            end) l), w').
Proof.
  intros K. destruct name as [name|]; [|discriminate K].
  unfold construct, __init__ in K.
  set (w0 := {| assets := pa; rng_pos := pos; this := fresh |}) in K.
  destruct (load_cases name w0)
    as [(m & c & md & obj & _ & _ & _ & L)|(e & L & _)].
  - rewrite (@bind_ok _ _ _ _ _ _ _ _ L) in K.
    set (w1 := with_this (set_portfolio_optimizer_class obj) w0) in *.
    destruct obj as [cls|].
    + assert (C : _portfolio_optimizer_class (this w1) = Holds (PyClass cls)) by reflexivity.
      destruct (init_after_load w1 C) as (d & w2 & f & w3 & S & F & Ld & Lf & T & I).
      rewrite I in K. injection K as <-.
      exists d, f, w1, w2, w3.
      split; [exact S|]. split; [exact F|]. split; [reflexivity|].
      assert (D' : _mean_var_dist (this (with_this (set_efficient_frontier f) w3)) = Holds d)
        by (cbn; rewrite T; reflexivity).
      assert (F' : _efficient_frontier (this (with_this (set_efficient_frontier f) w3)) = Holds f)
        by reflexivity.
      split; [exact D'|]. split; [exact F'|]. split; [exact Ld|]. split; [exact Lf|].
      apply calls_stored; assumption.
    + assert (C : _portfolio_optimizer_class (this w1) = Holds PyOther) by reflexivity.
      destruct (init_after_load_other w1 C) as (d & w2 & _ & _ & I).
      rewrite I in K. discriminate K.
  - rewrite (@bind_raise _ _ _ _ _ _ _ _ L) in K. discriminate K.
Qed.

End Construction.

(* ================================================================== *)
(** ** The world a construction leaves *)

Section Outcome.

Context {PA : Type} `{PortfolioAssets PA}.
Variable import_module : string -> exn + PyModule PA.
Variable randint : Z -> nat -> Z.

Local Abbreviation W := (@World PA).

(** The simulator moves the generator past one matrix and writes nothing
    to the object. *)
Lemma simulate_world (w : W) :
  exists pts w2,
    _simulate_expected_return_volatility_distribution randint w = (inr (DF_points pts), w2) /\
    List.length pts = _N_SIMULATION_MEAN_VAR /\
    this w2 = this w /\
    rng_pos w2 =
      rng_pos w + _N_SIMULATION_MEAN_VAR * List.length (ticker_symbols (assets w)).
Proof.
  destruct (simulate_spec randint w) as (batch & w1 & G & Len & S).
  destruct (generate_spec randint w) as (b' & G' & _).
  rewrite G in G'. injection G' as _ ->.
  eexists _, _. split; [exact S|].
  split; [rewrite simulated_length; exact Len|].
  split; reflexivity.
Qed.

(** The sweep on a frame with its columns writes to the provider only. *)
Lemma compute_world (cls : OptimizerClass PA) (pts : list (npfloat * npfloat)) (w : W) :
  _portfolio_optimizer_class (this w) = Holds (PyClass cls) ->
  _mean_var_dist (this w) = Holds (DF_points pts) ->
  exists f w',
    _compute_efficient_frontier_path randint w = (inr f, w') /\
    List.length (Pd.rows f) <= _N_SIMULATION_EFFICIENT_FRONTIER /\
    this w' = this w /\
    rng_pos w' = rng_pos w.
Proof.
  intros C D. pose proof (compute_spec randint w C D) as F. cbv zeta in F.
  eexists _, _. split; [exact F|].
  split; [|split; reflexivity].
  eapply Nat.le_trans; [apply sweep_length|].
  rewrite linspace_length. apply Nat.le_refl.
Qed.

(** Construction with a name that leads to a class. *)
Lemma construct_with_class (pa : PA) (pos : nat) (name m c : string)
    (md : PyModule PA) (cls : OptimizerClass PA) :
  rsplit1 "." name = [m; c] ->
  import_module m = inr md ->
  md c = Some (PyClass cls) ->
  exists d f w',
    construct import_module randint pa pos (Some name) = (inr tt, w') /\
    this w' =
      {| _portfolio_optimizer_class := Holds (PyClass cls);
         _mean_var_dist := Holds d;
         _efficient_frontier := Holds f |} /\
    List.length (Pd.rows d) = _N_SIMULATION_MEAN_VAR /\
    List.length (Pd.rows f) <= _N_SIMULATION_EFFICIENT_FRONTIER /\
    rng_pos w' = pos + _N_SIMULATION_MEAN_VAR * List.length (ticker_symbols pa).
Proof.
  intros S I G. unfold construct, __init__.
  set (w0 := {| assets := pa; rng_pos := pos; this := fresh |}).
  rewrite (@bind_ok _ _ _ _ _ _ _ _ (load_resolved import_module name w0 S I G)).
  set (w1 := with_this (set_portfolio_optimizer_class (PyClass cls)) w0).
  destruct (simulate_world w1) as (pts & w2 & Sim & Len & T & R).
  rewrite (@bind_ok _ _ _ _ _ _ _ _ Sim), bind_modify.
  set (w2' := with_this (set_mean_var_dist (DF_points pts)) w2).
  assert (C2 : _portfolio_optimizer_class (this w2') = Holds (PyClass cls))
    by (unfold w2'; cbn; rewrite T; reflexivity).
  assert (D2 : _mean_var_dist (this w2') = Holds (DF_points pts)) by reflexivity.
  destruct (compute_world w2' C2 D2) as (f & w3 & F & Lf & T3 & R3).
  rewrite (@bind_ok _ _ _ _ _ _ _ _ F).
  exists (DF_points pts), f, (with_this (set_efficient_frontier f) w3).
  split; [reflexivity|].
  split; [cbn; rewrite T3; unfold w2'; cbn; rewrite T; reflexivity|].
  split; [exact Len|]. split; [exact Lf|].
  cbn. rewrite R3. unfold w2'. cbn. rewrite R. reflexivity.
Qed.

(** Construction with a name that leads to an object that is not a class. *)
Lemma construct_with_other (pa : PA) (pos : nat) (name m c : string) (md : PyModule PA) :
  rsplit1 "." name = [m; c] ->
  import_module m = inr md ->
  md c = Some PyOther ->
  exists d w',
    construct import_module randint pa pos (Some name) = (inl TypeError, w') /\
    this w' =
      {| _portfolio_optimizer_class := Holds PyOther;
         _mean_var_dist := Holds d;
         _efficient_frontier := Unset |} /\
    List.length (Pd.rows d) = _N_SIMULATION_MEAN_VAR /\
    rng_pos w' = pos + _N_SIMULATION_MEAN_VAR * List.length (ticker_symbols pa).
Proof.
  intros S I G. unfold construct, __init__.
  set (w0 := {| assets := pa; rng_pos := pos; this := fresh |}).
  rewrite (@bind_ok _ _ _ _ _ _ _ _ (load_resolved import_module name w0 S I G)).
  set (w1 := with_this (set_portfolio_optimizer_class PyOther) w0).
  assert (C : _portfolio_optimizer_class (this w1) = Holds PyOther) by reflexivity.
  destruct (init_after_load_other randint w1 C) as (d & w2 & Sim & Len & E).
  destruct (simulate_world w1) as (pts & w2'' & Sim' & _ & T & R).
  rewrite Sim in Sim'. injection Sim' as -> <-.
  rewrite E. exists (DF_points pts), (with_this (set_mean_var_dist (DF_points pts)) w2).
  split; [reflexivity|].
  split; [cbn; rewrite T; reflexivity|].
  split; [exact Len|]. cbn. rewrite R. reflexivity.
Qed.

End Outcome.

(* ================================================================== *)
(** ** The statements on the concrete collaborators *)

Lemma sampler_normalises_rows_witness :
  3 < 2000 /\
  (forall k, (0 <= Mock.counting 100 k < 100)%Z) /\
  row_sum Mock.counting 0 2 3 <> 0%Z /\
  exists batch w' row,
    _generate_random_asset_weight_distribution Mock.counting Mock.start = (inr batch, w') /\
    Np.getitem2 batch 3 = inr row /\
    Forall2 (fun x r => feq x (Fin (inject_Z r / inject_Z (row_sum Mock.counting 0 2 3))))
            row (draws_row Mock.counting 0 2 3) /\
    feq (Np.sum row) (Fin 1) /\
    Forall (fun x => fle (Fin 0) x) row.
Proof.
  assert (L : 3 < 2000) by lia.
  assert (B : forall k, (0 <= Mock.counting 100 k < 100)%Z)
    by (intros k; unfold Mock.counting; apply Z.mod_pos_bound; lia).
  assert (NZ : row_sum Mock.counting 0 2 3 <> 0%Z) by (vm_compute; discriminate).
  split; [exact L|]. split; [exact B|]. split; [exact NZ|].
  exact (@sampler_normalises_rows _ _ Mock.counting Mock.start 3 L B NZ).
Defined.

Lemma sampler_divides_by_zero_row_sum_witness :
  0 < 2000 /\
  row_sum Mock.zeros 0 2 0 = 0%Z /\
  exists batch row,
    _generate_random_asset_weight_distribution Mock.zeros Mock.start =
      (inr batch, {| assets := []; rng_pos := 0 + 2000 * 2; this := fresh |}) /\
    Np.getitem2 batch 0 = inr row /\
    row = map (fun r => fmul (of_Z r) (fdiv (Fin 1) (of_Z 0))) (draws_row Mock.zeros 0 2 0) /\
    fdiv (Fin 1) (of_Z 0) = PInf /\
    Forall (fun x => isfinite x = false) row.
Proof.
  assert (L : 0 < 2000) by lia.
  assert (Z0 : row_sum Mock.zeros 0 2 0 = 0%Z) by reflexivity.
  split; [exact L|]. split; [exact Z0|].
  exact (@sampler_divides_by_zero_row_sum _ _ Mock.zeros Mock.start 0 L Z0).
Defined.


Lemma sweep_keeps_feasible_targets_witness :
  exists frontier w',
    _compute_efficient_frontier_path Mock.counting
        (Mock.ready Mock.upper_half (DF_points Mock.three_points)) = (inr frontier, w') /\
    Pd.rows frontier =
      flat_map feasible
        (outcomes Mock.upper_half
           (Np.linspace (Pd.min (map fst Mock.three_points))
                        (Pd.max (map fst Mock.three_points)) 100) []) /\
    List.length (Pd.rows frontier) = 25.
Proof.
  destruct (@sweep_keeps_feasible_targets _ _ Mock.counting Mock.upper_half
              Mock.three_points
              (Mock.ready Mock.upper_half (DF_points Mock.three_points))
              eq_refl eq_refl)
    as (frontier & w' & S & _ & R & _).
  exists frontier, w'. split; [exact S|]. split; [exact R|].
  rewrite R. vm_compute. reflexivity.
Defined.



Lemma sweep_on_frame_without_columns_raises_KeyError_witness :
  _compute_efficient_frontier_path Mock.counting
      (Mock.ready Mock.always_feasible DF_empty) =
    (inl KeyError, Mock.ready Mock.always_feasible DF_empty).
Proof.
  apply (@sweep_on_frame_without_columns_raises_KeyError _ _ Mock.counting).
  reflexivity.
Defined.

(** An empty frame that still has its columns does not make the sweep
    fail: the column reduces to NaN, the 100 targets are NaN, and the sweep
    returns the frame of whatever the optimizer reports for them. *)
Lemma sweep_on_empty_frame_with_columns_returns :
  Pd.rows (DF_points []) = [] /\
  _compute_efficient_frontier_path Mock.counting
      (Mock.ready Mock.always_feasible (DF_points [])) =
    (inr (DF_points (repeat (NaN, NaN) 100)),
     Mock.ready Mock.always_feasible (DF_points [])) /\
  _compute_efficient_frontier_path Mock.counting
      (Mock.ready Mock.never_feasible (DF_points [])) =
    (inr DF_empty, Mock.ready Mock.never_feasible (DF_points [])).
Proof.
  split; [reflexivity|]. split; vm_compute; reflexivity.
Qed.

Lemma sweep_targets_of_single_return_witness :
  Np.linspace_div 100 = 99 /\
  feq0 (of_nat (Np.linspace_div 100)) = false /\
  List.length (Np.linspace (Pd.min (map fst Mock.flat_points))
                           (Pd.max (map fst Mock.flat_points)) 100) = 100 /\
  Forall (fun t => feq t (Fin (15 # 100)))
         (Np.linspace (Pd.min (map fst Mock.flat_points))
                      (Pd.max (map fst Mock.flat_points)) 100).
Proof.
  destruct (@sweep_targets_of_single_return _ _ Mock.counting Mock.always_feasible
              Mock.flat_points
              (Mock.ready Mock.always_feasible (DF_points Mock.flat_points))
              (15 # 100) (15 # 100) eq_refl eq_refl eq_refl eq_refl (Qeq_refl _))
    as (D & Z0 & L & F & _).
  repeat split; assumption.
Defined.

Lemma properties_return_stored_frames_witness :
  exists w' d f,
    construct Mock.import_module Mock.counting [] 0
        (Some "chapter10.optimizers.UpperHalf") = (inr tt, w') /\
    _mean_var_dist (this w') = Holds d /\
    _efficient_frontier (this w') = Holds f /\
    List.length (Pd.rows d) = 2000 /\
    calls [Get_efficient_frontier; Get_mean_variance_distribution; Get_efficient_frontier] w' =
      (inr [Some f; Some d; Some f], w').
Proof.
  destruct (@construct_with_class _ _ Mock.import_module Mock.counting [] 0
              "chapter10.optimizers.UpperHalf" "chapter10.optimizers" "UpperHalf" _
              Mock.upper_half eq_refl eq_refl eq_refl)
    as (d0 & f0 & w' & K & _).
  exists w'.
  destruct (@properties_return_stored_frames _ _ Mock.import_module Mock.counting
              [] 0 (Some "chapter10.optimizers.UpperHalf") _ K)
    as (d & f & _ & _ & _ & _ & _ & _ & D & F & Ld & _ & C).
  exists d, f. split; [exact K|]. split; [exact D|]. split; [exact F|].
  split; [exact Ld|]. exact (C [Get_efficient_frontier; Get_mean_variance_distribution;
                                Get_efficient_frontier]).
Defined.

(* ================================================================== *)
(** ** More on the loader *)

Lemma rsplit1_without_sep (sep : ascii) (s : string) :
  ~ In sep (list_ascii_of_string s) -> rsplit1 sep s = [s].
Proof.
  induction s as [|a s IH]; intros N; [reflexivity|].
  simpl in N. simpl. rewrite IH by tauto.
  destruct (Ascii.eqb_spec a sep) as [E|_]; [|reflexivity].
  exfalso. apply N. left. exact E.
Qed.

Lemma rsplit1_at_last_sep (sep : ascii) (m c : string) :
  ~ In sep (list_ascii_of_string c) ->
  rsplit1 sep (m ++ String sep c)%string = [m; c].
Proof.
  intros N. induction m as [|a m IH]; simpl.
  - rewrite (rsplit1_without_sep _ _ N). rewrite Ascii.eqb_refl. reflexivity.
  - rewrite IH. reflexivity.
Qed.

Section Loader.

Context {PA : Type} `{PortfolioAssets PA}.
Variable import_module : string -> exn + PyModule PA.

Local Abbreviation W := (@World PA).

(** X1: a class name without any dot makes the loader raise [ValueError],
    whatever can be imported, and leaves the object without a class. *)
Theorem loader_rejects_name_without_dot (name : string) (w : W) :
  ~ In "."%char (list_ascii_of_string name) ->
  _load_portfolio_optimizer_class import_module (Some name) w = (inl ValueError, w).
Proof.
  intros N. unfold _load_portfolio_optimizer_class.
  rewrite (rsplit1_without_sep _ _ N). reflexivity.
Qed.

(** X2: the loader splits the name at its last dot: for a module path [m],
    which may hold dots itself, and a class name [c] without dot, the name
    [m.c] makes it import [m] and look [c] up there; it raises the error of
    the import, an [AttributeError] when [m] has no attribute [c], and stores
    the attribute otherwise. *)
Theorem loader_splits_name_at_last_dot (m c : string) (w : W) :
  ~ In "."%char (list_ascii_of_string c) ->
  _load_portfolio_optimizer_class import_module (Some (m ++ "." ++ c)%string) w =
    match import_module m with
    | inl e => (inl e, w)
    | inr md =>
        match md c with
        | None => (inl AttributeError, w)
        | Some obj => (inr tt, with_this (set_portfolio_optimizer_class obj) w)
        end
    end.
Proof.
  intros N. unfold _load_portfolio_optimizer_class.
  change (m ++ "." ++ c)%string with (m ++ String "." c)%string.
  rewrite (rsplit1_at_last_sep _ m _ N).
  unfold bind. destruct (import_module m) as [e|md]; [reflexivity|].
  cbn [lift ret]. destruct (md c) as [obj|]; reflexivity.
Qed.

End Loader.

Lemma loader_rejects_name_without_dot_witness :
  _load_portfolio_optimizer_class Mock.import_module (Some "UpperHalf") Mock.start =
    (inl ValueError, Mock.start).
Proof.
  apply (@loader_rejects_name_without_dot _ Mock.import_module "UpperHalf" Mock.start).
  simpl. intros I. repeat (destruct I as [I|I]; [discriminate I|]). exact I.
Defined.

Lemma loader_splits_name_at_last_dot_witness :
  _load_portfolio_optimizer_class Mock.import_module
      (Some "chapter10.optimizers.UpperHalf") Mock.start =
    (inr tt, with_this (set_portfolio_optimizer_class (PyClass Mock.upper_half)) Mock.start).
Proof.
  apply (@loader_splits_name_at_last_dot _ Mock.import_module
           "chapter10.optimizers" "UpperHalf" Mock.start).
  simpl. intros I. repeat (destruct I as [I|I]; [discriminate I|]). exact I.
Defined.

(* ================================================================== *)
(** ** More on construction *)

Section ConstructionOutcomes.

Context {PA : Type} `{PortfolioAssets PA}.
Variable import_module : string -> exn + PyModule PA.
Variable randint : Z -> nat -> Z.

Local Abbreviation W := (@World PA).


(** X4: a construction that returns has taken the draws of exactly one
    2000-row matrix, one draw per row and ticker: the sweep does not
    simulate again. *)
Theorem construction_draws_one_matrix
    (pa : PA) (pos : nat) (name : option string) (w' : W) :
  construct import_module randint pa pos name = (inr tt, w') ->
  rng_pos w' = pos + 2000 * List.length (ticker_symbols pa).
Proof.
  intros K. destruct name as [name|]; [|discriminate K].
  destruct (load_cases import_module name {| assets := pa; rng_pos := pos; this := fresh |})
    as [(m & c & md & obj & S & I & G & _)|(e & L & _)].
  - destruct obj as [cls|].
    + destruct (construct_with_class import_module randint pa pos name S I G)
        as (d & f & w'' & K' & _ & _ & _ & R).
      rewrite K in K'. injection K' as <-. exact R.
    + destruct (construct_with_other import_module randint pa pos name S I G)
        as (d & w'' & K' & _).
      rewrite K in K'. discriminate K'.
  - unfold construct, __init__ in K.
    rewrite (@bind_raise _ _ _ _ _ _ _ _ L) in K. discriminate K.
Qed.


End ConstructionOutcomes.

Lemma construction_draws_one_matrix_witness :
  exists w',
    construct Mock.import_module Mock.counting [] 7
      (Some "chapter10.optimizers.AlwaysFeasible") = (inr tt, w') /\
    rng_pos w' = 4007.
Proof.
  destruct (@construct_with_class _ _ Mock.import_module Mock.counting [] 7
              "chapter10.optimizers.AlwaysFeasible" "chapter10.optimizers"
              "AlwaysFeasible" _ Mock.always_feasible eq_refl eq_refl eq_refl)
    as (d & f & w' & K & _).
  exists w'. split; [exact K|].
  exact (@construction_draws_one_matrix _ _ Mock.import_module Mock.counting
           [] 7 _ w' K).
Defined.


(* ================================================================== *)
(** ** More on the sweep *)

Lemma linspace_within (a b : Q) (num : nat) (t : npfloat) :
  (a <= b)%Q -> 1 < num ->
  In t (Np.linspace (Fin a) (Fin b) num) ->
  fle (Fin a) t /\ fle t (Fin b).
Proof.
  intros AB N I. destruct (In_nth _ _ NaN I) as (i & L & <-).
  rewrite linspace_length in L.
  pose proof (@linspace_monotone a b num 0 i AB) as Lo.
  pose proof (@linspace_monotone a b num i (num - 1) AB) as Hi.
  rewrite linspace_last in Hi by exact N.
  destruct (@linspace_closed a b num 0) as (q0 & E0 & Q0); try lia.
  destruct (@linspace_closed a b num i) as (q & E & _); try lia.
  rewrite E in *. rewrite E0 in Lo.
  split; [|apply Hi; lia].
  assert (Lo' : fle (Fin q0) (Fin q)) by (apply Lo; lia).
  assert (Qa : q0 == a) by (rewrite Q0; simpl inject_Z; ring).
  unfold fle in *. simpl in Lo' |- *. apply Qle_bool_iff. apply Qle_bool_iff in Lo'.
  rewrite <- Qa. exact Lo'.
Qed.

Lemma outcomes_all_feasible {PA : Type} (cls : OptimizerClass PA) (targets : list npfloat) :
  (forall o, optimal_variance cls o <> None) ->
  forall pa, map fst (flat_map feasible (outcomes cls targets pa)) = targets.
Proof.
  intros A. induction targets as [|t rest IH]; intros pa; [reflexivity|].
  cbn [outcomes]. destruct (fit cls (new cls t) pa) as [fitted pa'].
  cbn [flat_map]. unfold feasible at 1. cbn [fst snd].
  destruct (optimal_variance cls fitted) as [v|] eqn:E; [|exfalso; exact (A _ E)].
  cbn [app map fst]. rewrite IH. reflexivity.
Qed.

Section Sweep.

Context {PA : Type} `{PortfolioAssets PA}.
Variable randint : Z -> nat -> Z.

Local Abbreviation W := (@World PA).

Lemma read_none {A} (field : Self -> attr A) (w : W) :
  field (this w) = PyNone -> read field w = (inr None, w).
Proof. intros E. unfold read. rewrite E. reflexivity. Qed.

(** X6: when [_mean_var_dist] holds [None], the sweep first runs the
    simulator, stores its 2000 points in [_mean_var_dist], and then sweeps
    over this frame: it returns what a sweep on the stored frame returns,
    and the generator has moved past one matrix. *)
Theorem sweep_simulates_when_distribution_is_None (cls : OptimizerClass PA) (w : W) :
  _portfolio_optimizer_class (this w) = Holds (PyClass cls) ->
  _mean_var_dist (this w) = PyNone ->
  exists d w2 f w3,
    _simulate_expected_return_volatility_distribution randint w = (inr d, w2) /\
    List.length (Pd.rows d) = 2000 /\
    _compute_efficient_frontier_path randint (with_this (set_mean_var_dist d) w2) =
      (inr f, w3) /\
    _compute_efficient_frontier_path randint w = (inr f, w3) /\
    _mean_var_dist (this w3) = Holds d /\
    rng_pos w3 = rng_pos w + 2000 * List.length (ticker_symbols (assets w)).
Proof.
  intros C D.
  destruct (simulate_world randint w) as (pts & w2 & Sim & Len & T & R).
  set (w2' := with_this (set_mean_var_dist (DF_points pts)) w2).
  assert (C2 : _portfolio_optimizer_class (this w2') = Holds (PyClass cls))
    by (unfold w2'; cbn; rewrite T; exact C).
  assert (D2 : _mean_var_dist (this w2') = Holds (DF_points pts)) by reflexivity.
  destruct (compute_world randint w2' C2 D2) as (f & w3 & F & _ & T3 & R3).
  exists (DF_points pts), w2, f, w3.
  split; [exact Sim|]. split; [exact Len|]. split; [exact F|].
  split; [|split; [rewrite T3; exact D2|rewrite R3; exact R]].
  rewrite <- F. unfold _compute_efficient_frontier_path.
  rewrite (@bind_ok _ _ _ _ _ _ _ _ (@read_none _ _ w D)).
  rewrite (@bind_ok _ _ _ _ _ _ _ _ (@read_holds _ _ _ _ w2' D2)).
  rewrite bind_ret.
  assert (E : bind (_simulate_expected_return_volatility_distribution randint)
                (fun d => modify (with_this (set_mean_var_dist d))) w = (inr tt, w2'))
    by (rewrite (@bind_ok _ _ _ _ _ _ _ _ Sim); reflexivity).
  rewrite (@bind_ok _ _ _ _ _ _ _ _ E). reflexivity.
Qed.

(** X7: on a distribution with at least one point and finite expected
    returns, every point of the frontier has its expected return between
    the least and the greatest expected return of the distribution. *)
Theorem frontier_returns_within_simulated_range
    (cls : OptimizerClass PA) (pts : list (npfloat * npfloat)) (w : W) :
  _portfolio_optimizer_class (this w) = Holds (PyClass cls) ->
  _mean_var_dist (this w) = Holds (DF_points pts) ->
  pts <> [] ->
  forallb isfinite (map fst pts) = true ->
  exists frontier w',
    _compute_efficient_frontier_path randint w = (inr frontier, w') /\
    Forall (fun p => fle (Pd.min (map fst pts)) (fst p) /\
                     fle (fst p) (Pd.max (map fst pts)))
           (Pd.rows frontier).
Proof.
  intros C D N F.
  pose proof (compute_spec randint w C D) as S. cbv zeta in S.
  rewrite visit_outcomes in S. cbn [Pd.concat] in S.
  eexists _, _. split; [exact S|].
  rewrite rows_frame_of. apply Forall_forall. intros p I.
  assert (It : In (fst p) (map fst (flat_map feasible
               (outcomes cls (Np.linspace (Pd.min (map fst pts)) (Pd.max (map fst pts))
                                _N_SIMULATION_EFFICIENT_FRONTIER) (assets w)))))
    by (apply in_map; exact I).
  apply feasible_in in It. rewrite outcomes_targets in It.
  assert (N' : map fst pts <> []) by (destruct pts; [congruence|discriminate]).
  destruct (@min_max_finite (map fst pts) N' F) as (lo & hi & Emin & Emax & LH & _).
  rewrite Emin, Emax in *.
  apply (@linspace_within lo hi _N_SIMULATION_EFFICIENT_FRONTIER); try assumption.
  unfold _N_SIMULATION_EFFICIENT_FRONTIER. lia.
Qed.

(** X8: with an optimizer that reports a variance for every target, the
    frontier has exactly 100 points and their expected returns are the
    targets, first to last. *)
Theorem sweep_with_always_feasible_optimizer_keeps_all_targets
    (cls : OptimizerClass PA) (pts : list (npfloat * npfloat)) (w : W) :
  _portfolio_optimizer_class (this w) = Holds (PyClass cls) ->
  _mean_var_dist (this w) = Holds (DF_points pts) ->
  (forall o, optimal_variance cls o <> None) ->
  exists frontier w',
    _compute_efficient_frontier_path randint w = (inr frontier, w') /\
    map fst (Pd.rows frontier) =
      Np.linspace (Pd.min (map fst pts)) (Pd.max (map fst pts)) 100 /\
    List.length (Pd.rows frontier) = 100.
Proof.
  intros C D A.
  pose proof (compute_spec randint w C D) as S. cbv zeta in S.
  rewrite visit_outcomes in S. cbn [Pd.concat] in S.
  eexists _, _. split; [exact S|].
  rewrite rows_frame_of.
  assert (E := outcomes_all_feasible cls
                 (Np.linspace (Pd.min (map fst pts)) (Pd.max (map fst pts))
                              _N_SIMULATION_EFFICIENT_FRONTIER) A (assets w)).
  split; [exact E|].
  rewrite <- (length_map fst), E. apply linspace_length.
Qed.

(** X9: a sweep on a frame that has its columns takes no draw and writes
    no attribute of the object: only the provider can change, through the
    fits. *)
Theorem sweep_leaves_generator_and_object
    (cls : OptimizerClass PA) (pts : list (npfloat * npfloat)) (w : W) :
  _portfolio_optimizer_class (this w) = Holds (PyClass cls) ->
  _mean_var_dist (this w) = Holds (DF_points pts) ->
  exists frontier w',
    _compute_efficient_frontier_path randint w = (inr frontier, w') /\
    rng_pos w' = rng_pos w /\
    this w' = this w /\
    assets w' =
      snd (fold_left (visit cls)
             (Np.linspace (Pd.min (map fst pts)) (Pd.max (map fst pts)) 100)
             (DF_empty, assets w)).
Proof.
  intros C D. pose proof (compute_spec randint w C D) as S. cbv zeta in S.
  eexists _, _. split; [exact S|].
  split; [reflexivity|]. split; reflexivity.
Qed.

End Sweep.

Lemma sweep_simulates_when_distribution_is_None_witness :
  exists d w2 f w3,
    _simulate_expected_return_volatility_distribution Mock.counting
      {| assets := []; rng_pos := 0;
         this := {| _portfolio_optimizer_class := Holds (PyClass Mock.always_feasible);
                    _mean_var_dist := PyNone;
                    _efficient_frontier := Unset |} |} = (inr d, w2) /\
    List.length (Pd.rows d) = 2000 /\
    _compute_efficient_frontier_path Mock.counting
      (with_this (set_mean_var_dist d) w2) = (inr f, w3) /\
    _compute_efficient_frontier_path Mock.counting
      {| assets := []; rng_pos := 0;
         this := {| _portfolio_optimizer_class := Holds (PyClass Mock.always_feasible);
                    _mean_var_dist := PyNone;
                    _efficient_frontier := Unset |} |} = (inr f, w3) /\
    _mean_var_dist (this w3) = Holds d /\
    rng_pos w3 = 4000.
Proof.
  exact (@sweep_simulates_when_distribution_is_None _ _ Mock.counting
           Mock.always_feasible
           {| assets := []; rng_pos := 0;
              this := {| _portfolio_optimizer_class := Holds (PyClass Mock.always_feasible);
                         _mean_var_dist := PyNone;
                         _efficient_frontier := Unset |} |}
           eq_refl eq_refl).
Defined.

Lemma frontier_returns_within_simulated_range_witness :
  exists frontier w',
    _compute_efficient_frontier_path Mock.counting
      (Mock.ready Mock.upper_half (DF_points Mock.three_points)) = (inr frontier, w') /\
    Forall (fun p => fle (Pd.min (map fst Mock.three_points)) (fst p) /\
                     fle (fst p) (Pd.max (map fst Mock.three_points)))
           (Pd.rows frontier).
Proof.
  apply (@frontier_returns_within_simulated_range _ _ Mock.counting Mock.upper_half
           Mock.three_points (Mock.ready Mock.upper_half (DF_points Mock.three_points))).
  - reflexivity.
  - reflexivity.
  - discriminate.
  - reflexivity.
Defined.

Lemma sweep_with_always_feasible_optimizer_keeps_all_targets_witness :
  exists frontier w',
    _compute_efficient_frontier_path Mock.counting
      (Mock.ready Mock.always_feasible (DF_points Mock.three_points)) = (inr frontier, w') /\
    map fst (Pd.rows frontier) =
      Np.linspace (Pd.min (map fst Mock.three_points))
                  (Pd.max (map fst Mock.three_points)) 100 /\
    List.length (Pd.rows frontier) = 100.
Proof.
  apply (@sweep_with_always_feasible_optimizer_keeps_all_targets _ _ Mock.counting
           Mock.always_feasible Mock.three_points
           (Mock.ready Mock.always_feasible (DF_points Mock.three_points))).
  - reflexivity.
  - reflexivity.
  - intros o. simpl. discriminate.
Defined.

Lemma sweep_leaves_generator_and_object_witness :
  exists frontier w',
    _compute_efficient_frontier_path Mock.counting
      (Mock.ready Mock.upper_half (DF_points Mock.three_points)) = (inr frontier, w') /\
    rng_pos w' = 0 /\
    this w' = this (Mock.ready Mock.upper_half (DF_points Mock.three_points)) /\
    assets w' = [Fin (1 # 2); Fin (1 # 2)].
Proof.
  destruct (@sweep_leaves_generator_and_object _ _ Mock.counting Mock.upper_half
              Mock.three_points
              (Mock.ready Mock.upper_half (DF_points Mock.three_points))
              eq_refl eq_refl)
    as (frontier & w' & S & R & T & A).
  exists frontier, w'. split; [exact S|]. split; [exact R|]. split; [exact T|].
  rewrite A. vm_compute. reflexivity.
Defined.

(* ================================================================== *)
(** ** More on the sampler *)

Lemma in_le_fold_add (l : list Z) (r : Z) :
  Forall (fun x => (0 <= x)%Z) l -> In r l -> (r <= fold_left Z.add l 0)%Z.
Proof.
  induction 1 as [|x l Px Pl IH]; intros I; [destruct I|].
  simpl. rewrite fold_add_shift. pose proof (fold_add_nonneg Pl) as P.
  destruct I as [<-|I]; [lia|]. specialize (IH I). lia.
Qed.

Section Sampler.

Context {PA : Type} `{PortfolioAssets PA}.
Variable randint : Z -> nat -> Z.

Local Abbreviation W := (@World PA).

(** X10: in a row whose draws, all in [0, 100), have a nonzero sum, every
    weight lies between 0 and 1. *)
Theorem sampler_weights_between_zero_and_one (w : W) (i : nat) :
  let n := List.length (ticker_symbols (assets w)) in
  i < 2000 ->
  (forall k, (0 <= randint 100 k < 100)%Z) ->
  row_sum randint (rng_pos w) n i <> 0%Z ->
  exists batch w' row,
    _generate_random_asset_weight_distribution randint w = (inr batch, w') /\
    Np.getitem2 batch i = inr row /\
    Forall (fun x => fle (Fin 0) x /\ fle x (Fin 1)) row.
Proof.
  intros n L B NZ.
  destruct (generate_row randint w L) as (batch & G & R).
  fold n in G, R.
  set (draws := draws_row randint (rng_pos w) n i) in *.
  set (total := row_sum randint (rng_pos w) n i) in *.
  assert (TQ : ~ inject_Z total == 0) by (apply inject_Z_nonzero; exact NZ).
  assert (Pos : Forall (fun r => (0 <= r)%Z) draws).
  { apply Forall_forall. intros r I. unfold draws, draws_row in I.
    apply in_map_iff in I. destruct I as (j & <- & _). apply B. }
  assert (TP : (0 < total)%Z).
  { pose proof (fold_add_nonneg Pos) as P.
    change (fold_left Z.add draws 0%Z) with total in P. lia. }
  assert (TPQ : (0 < inject_Z total)%Q)
    by (change 0%Q with (inject_Z 0); rewrite <- Zlt_Qlt; exact TP).
  unfold of_Z in R. rewrite (fdiv_fin _ TQ) in R.
  eexists batch, _, _. split; [exact G|]. split; [exact R|].
  apply Forall_forall. intros x I. apply in_map_iff in I.
  destruct I as (r & <- & I). unfold fle. simpl. rewrite !Qle_bool_iff.
  rewrite Forall_forall in Pos. pose proof (Pos r I) as P0.
  assert (RT : (r <= total)%Z)
    by (apply in_le_fold_add; [apply Forall_forall; exact Pos|exact I]).
  assert (E : inject_Z r * (1 / inject_Z total) == inject_Z r / inject_Z total)
    by (field; exact TQ).
  rewrite E. split.
  - apply Qle_shift_div_l; [exact TPQ|]. rewrite Qmult_0_l.
    change 0%Q with (inject_Z 0). rewrite <- Zle_Qle. exact P0.
  - apply Qle_shift_div_r; [exact TPQ|]. rewrite Qmult_1_l.
    rewrite <- Zle_Qle. exact RT.
Qed.

(** X11: for a provider without tickers the sampler takes no draw: the
    world is left as it was and each of the 2000 rows is empty; there is no
    row 2000. *)
Theorem sampler_without_tickers_takes_no_draw (w : W) :
  ticker_symbols (assets w) = [] ->
  exists batch,
    _generate_random_asset_weight_distribution randint w = (inr batch, w) /\
    (forall i, i < 2000 -> Np.getitem2 batch i = inr []) /\
    Np.getitem2 batch 2000 = inl IndexError.
Proof.
  intros E.
  destruct (generate_spec randint w) as (batch & G & R & C & _).
  rewrite E in G, C. simpl List.length in G, C.
  rewrite Nat.mul_0_r, Nat.add_0_r in G.
  exists batch. split; [rewrite G; destruct w; reflexivity|].
  unfold Np.getitem2. rewrite R, C. split.
  - intros i L.
    destruct (Nat.ltb_spec i _N_SIMULATION_MEAN_VAR) as [_|?]; [reflexivity|].
    unfold _N_SIMULATION_MEAN_VAR in *. lia.
  - rewrite Nat.ltb_irrefl. reflexivity.
Qed.

(** X12: the sampler never fails and writes nothing but the generator
    position: it returns 2000 rows with one weight per ticker each and
    moves the generator past 2000 draws per ticker. *)
Theorem sampler_returns_one_weight_per_ticker (w : W) :
  exists batch,
    _generate_random_asset_weight_distribution randint w =
      (inr batch,
       {| assets := assets w;
          rng_pos := rng_pos w + 2000 * List.length (ticker_symbols (assets w));
          this := this w |}) /\
    List.length (Np.rows_of batch) = 2000 /\
    Forall (fun row => List.length row = List.length (ticker_symbols (assets w)))
           (Np.rows_of batch).
Proof.
  destruct (generate_spec randint w) as (batch & G & R & C & _).
  exists batch. split; [exact G|].
  unfold Np.rows_of. rewrite length_map, length_seq. split; [exact R|].
  apply Forall_forall. intros row I. apply in_map_iff in I.
  destruct I as (i & <- & _). rewrite length_map, length_seq. exact C.
Qed.

End Sampler.

Lemma sampler_weights_between_zero_and_one_witness :
  exists batch w' row,
    _generate_random_asset_weight_distribution Mock.counting Mock.start = (inr batch, w') /\
    Np.getitem2 batch 3 = inr row /\
    Forall (fun x => fle (Fin 0) x /\ fle x (Fin 1)) row.
Proof.
  apply (@sampler_weights_between_zero_and_one _ _ Mock.counting Mock.start 3).
  - lia.
  - intros k. unfold Mock.counting. apply Z.mod_pos_bound. lia.
  - vm_compute. discriminate.
Defined.

Lemma sampler_without_tickers_takes_no_draw_witness :
  exists batch,
    _generate_random_asset_weight_distribution Mock.counting
      {| assets := tt; rng_pos := 5; this := fresh |} =
      (inr batch, {| assets := tt; rng_pos := 5; this := fresh |}) /\
    (forall i, i < 2000 -> Np.getitem2 batch i = inr []) /\
    Np.getitem2 batch 2000 = inl IndexError.
Proof.
  apply (@sampler_without_tickers_takes_no_draw _ _ Mock.counting
           {| assets := tt; rng_pos := 5; this := fresh |}).
  reflexivity.
Defined.
